(** * The slideshow generator's server, [server.js], embedded in Rocq

    The server relays a topic to a remote completion endpoint in two
    stages (structure, then enhancement), parses the JSON the model
    returns, merges the enhancement into the structure and sends the
    document back.  This file embeds the adapter [callMegaLLM], the two
    stages [generatePresentationStructure] and [enhancePresentation], the
    two routes [/api/generate] and [/api/health], and the JavaScript
    operations they rest on, and proves properties of them.

    Conventions of the embedding:
    - a JavaScript string is a [string]; each character stands for one
      code unit (code units above 255 are not represented);
    - a JSON number is a [Z]: numbers with a fractional part or an
      exponent are not represented, and the text of a number is the one
      JavaScript prints for the integers it holds exactly, those below
      2^53 in absolute value ([Js.safeInteger]); a statement that
      concludes a text made from a value assumes that the value is
      printed exactly ([Js.printsExactly] for a conversion to a string,
      [Json.exact] for a serialization);
    - console output is not modelled;
    - the rate limiters, CORS, body parsing and static file serving are
      middleware outside the embedded code. *)

From Stdlib Require Import Ascii String ZArith QArith Lia.
From stdpp Require Import base list strings pretty.

Set Warnings "-register-all".

Local Open Scope string_scope.
Local Open Scope Z_scope.

(** ** Strings: [trim], [startsWith], [endsWith], [slice] *)

Module JsString.

(** The code units [String.prototype.trim] removes, within the range of
    the embedding: TAB, LF, VT, FF, CR, SPACE and NO-BREAK SPACE. *)
Definition isWhiteSpace (c : ascii) : bool :=
  let n := nat_of_ascii c in
  ((9 <=? n)%nat && (n <=? 13)%nat) || (n =? 32)%nat || (n =? 160)%nat.

Fixpoint trimStart (s : string) : string :=
  match s with
  | String c r => if isWhiteSpace c then trimStart r else s
  | EmptyString => EmptyString
  end.

Fixpoint trimEnd (s : string) : string :=
  match s with
  | String c r =>
      match trimEnd r with
      | EmptyString => if isWhiteSpace c then EmptyString else String c EmptyString
      | r' => String c r'
      end
  | EmptyString => EmptyString
  end.

(** [s.trim()] *)
Definition trim (s : string) : string := trimEnd (trimStart s).

(** [s.startsWith(p)] *)
Fixpoint startsWith (s p : string) {struct p} : bool :=
  match p, s with
  | EmptyString, _ => true
  | String a p', String b s' => if Ascii.eqb a b then startsWith s' p' else false
  | String _ _, EmptyString => false
  end.

(** [s.slice(n)] for a count [n] of code units, [0 <= n]. *)
Fixpoint sliceFrom (n : nat) (s : string) : string :=
  match n, s with
  | O, _ => s
  | S n', String _ r => sliceFrom n' r
  | S _, EmptyString => EmptyString
  end.

(** [s.slice(0, n)] for [0 <= n]. *)
Fixpoint sliceTo (n : nat) (s : string) : string :=
  match n, s with
  | S n', String c r => String c (sliceTo n' r)
  | _, _ => EmptyString
  end.

(** [s.endsWith(p)]: the last [length p] code units of [s] are [p]. *)
Definition endsWith (s p : string) : bool :=
  (String.length p <=? String.length s)%nat
  && String.eqb (sliceFrom (String.length s - String.length p) s) p.

(** [s.slice(0, -n)]: the end position is [max (length s - n) 0]. *)
Definition sliceDropEnd (n : nat) (s : string) : string :=
  sliceTo (String.length s - n) s.

(** The code unit at position [i] as a one-unit string, [s[i]]. *)
Fixpoint charAt (i : nat) (s : string) : option string :=
  match s, i with
  | EmptyString, _ => None
  | String c _, O => Some (String c EmptyString)
  | String _ r, S i' => charAt i' r
  end.

Fixpoint allUnits (P : ascii -> bool) (s : string) : bool :=
  match s with
  | EmptyString => true
  | String c r => P c && allUnits P r
  end.

Definition headUnit (s : string) : option ascii :=
  match s with
  | EmptyString => None
  | String c _ => Some c
  end.

Fixpoint lastUnit (s : string) : option ascii :=
  match s with
  | EmptyString => None
  | String c EmptyString => Some c
  | String _ r => lastUnit r
  end.

(** A string that consists of white space only. *)
Definition blank (s : string) : Prop := allUnits isWhiteSpace s = true.

(** A string whose first and last code units are not white space. *)
Definition tight (s : string) : Prop :=
  (exists c, headUnit s = Some c /\ isWhiteSpace c = false)
  /\ (exists c, lastUnit s = Some c /\ isWhiteSpace c = false).


Definition isDigit (c : ascii) : bool :=
  let n := nat_of_ascii c in (48 <=? n)%nat && (n <=? 57)%nat.



End JsString.

(** ** Values

    The values that [JSON.parse] produces, and [undefined], which a
    property read yields for an absent property.  An object keeps its
    properties in insertion order, so it is an association list; a
    property read takes the first binding of a key. *)

Inductive value : Type :=
  | VUndef
  | VNull
  | VBool (b : bool)
  | VNum (n : Z)
  | VStr (s : string)
  | VArr (items : list value)
  | VObj (props : list (string * value)).

Definition dquote : string := String (ascii_of_nat 34) EmptyString.

Module Js.

(** Truthiness, as tested by [if (x)], [!x] and [x || y]. *)
Definition truthy (v : value) : bool :=
  match v with
  | VUndef | VNull => false
  | VBool b => b
  | VNum n => negb (n =? 0)
  | VStr s => negb (String.eqb s "")
  | VArr _ | VObj _ => true
  end.

(** The text that [ToString] gives when it returns: a value becomes a
    property key ([a[v]]) or text inside a template literal this way.
    An array joins its elements with commas, [null] and [undefined]
    elements giving the empty string.  The conversion of an object with
    an own property [toString] does not return but throws; [converts]
    below tells when, and the code that converts is modelled with
    [ToPropertyKey] or with a test of [converts]. *)
Fixpoint ToString (v : value) : string :=
  match v with
  | VUndef => "undefined"
  | VNull => "null"
  | VBool true => "true"
  | VBool false => "false"
  | VNum n => pretty n
  | VStr s => s
  | VArr items =>
      (fix join (xs : list value) : string :=
         match xs with
         | [] => ""
         | x :: r =>
             let sx := match x with
                       | VUndef | VNull => ""
                       | _ => ToString x
                       end in
             match r with
             | [] => sx
             | _ :: _ => sx +:+ "," +:+ join r
             end
         end) items
  | VObj _ => "[object Object]"
  end.

(** Own property of an object: the first binding of [k]. *)
Fixpoint own (props : list (string * value)) (k : string) : option value :=
  match props with
  | [] => None
  | (k', v) :: r => if String.eqb k' k then Some v else own r k
  end.

(** Whether the conversion of [v] to a string returns.  An object that
    [JSON.parse] made has no callable member of its own, so an own
    property [toString] hides [Object.prototype.toString]; [valueOf]
    then gives back the object itself and the conversion ends in a
    TypeError.  Without it the inherited method answers.  An array
    converts each element other than [null] and [undefined]. *)
Fixpoint converts (v : value) : bool :=
  match v with
  | VArr items =>
      (fix each (xs : list value) : bool :=
         match xs with
         | [] => true
         | x :: r =>
             match x with
             | VUndef | VNull => true
             | _ => converts x
             end && each r
         end) items
  | VObj props =>
      match own props "toString" with
      | Some _ => false
      | None => true
      end
  | _ => true
  end.

(** The conversion of [v] to a property key, [None] being the
    TypeError. *)
Definition ToPropertyKey (v : value) : option string :=
  if converts v then Some (ToString v) else None.

(** [Number.isSafeInteger(n)] *)
Definition safeInteger (n : Z) : bool := (- 2 ^ 53 <? n) && (n <? 2 ^ 53).

(** The values whose text, as [ToString] gives it, is the text that
    JavaScript produces: the numbers that the conversion prints are safe
    integers. *)
Fixpoint printsExactly (v : value) : bool :=
  match v with
  | VNum n => safeInteger n
  | VArr items =>
      (fix each (xs : list value) : bool :=
         match xs with
         | [] => true
         | x :: r => printsExactly x && each r
         end) items
  | _ => true
  end.

(** [o[k] = x] on an object: an existing property keeps its place, a new
    one goes last. *)
Fixpoint assign (props : list (string * value)) (k : string) (x : value)
  : list (string * value) :=
  match props with
  | [] => [(k, x)]
  | (k', v) :: r =>
      if String.eqb k' k then (k', x) :: r else (k', v) :: assign r k x
  end.

(** The index a key names in an array or string of [len] elements: the
    [i < len] whose decimal form is [k], if any. *)
Definition indexOfKey (k : string) (len : nat) : option nat :=
  List.find (fun i => String.eqb (pretty i) k) (seq 0 len).

(** [v[k]] (and [v.k]).  [None] is the TypeError raised when [v] is
    [null] or [undefined].  Members inherited from the built-in
    prototypes (methods, [constructor], ...) are not values of the
    document and read as absent here; the methods the server calls are
    modelled where they are called. *)
Definition Get (v : value) (k : string) : option value :=
  match v with
  | VUndef | VNull => None
  | VBool _ | VNum _ => Some VUndef
  | VStr s =>
      match indexOfKey k (String.length s) with
      | Some i => Some (default VUndef (VStr <$> JsString.charAt i s))
      | None =>
          if String.eqb k "length" then Some (VNum (Z.of_nat (String.length s)))
          else Some VUndef
      end
  | VArr items =>
      match indexOfKey k (length items) with
      | Some i => Some (default VUndef (items !! i))
      | None =>
          if String.eqb k "length" then Some (VNum (Z.of_nat (length items)))
          else Some VUndef
      end
  | VObj props => Some (default VUndef (own props k))
  end.

(** [v.k = x] for a value [v] other than [null] and [undefined] and a
    name [k] that is neither an index nor [length].  The module is not
    in strict mode, so the write is dropped without error on a
    primitive.  On an array it creates a named property, which is not
    part of the array's JSON image and is not represented. *)
Definition Put (v : value) (k : string) (x : value) : value :=
  match v with
  | VObj props => VObj (assign props k x)
  | _ => v
  end.

(** The effect on [a] of an update [f] applied to the value that [a[k]]
    denotes: an element of an array or an own property of an object is
    replaced by its updated version; a code unit of a string, a
    [length] and an absent property are not part of [a]. *)
Definition updateAt (a : value) (k : string) (f : value -> value) : value :=
  match a with
  | VArr items =>
      match indexOfKey k (length items) with
      | Some i => VArr (alter f i items)
      | None => a
      end
  | VObj props =>
      match own props k with
      | Some x => VObj (assign props k (f x))
      | None => a
      end
  | _ => a
  end.

End Js.

(** ** [JSON.stringify]

    The compact serialization: [undefined] has none, is [null] inside an
    array and is left out of an object.  Properties are written in the
    order of the association list, and a number with all its digits;
    [exact] below tells for which values this is the text that
    [JSON.stringify] produces. *)

Module Json.

Definition hexDigit (n : nat) : ascii :=
  match n with
  | 0 => "0" | 1 => "1" | 2 => "2" | 3 => "3" | 4 => "4" | 5 => "5"
  | 6 => "6" | 7 => "7" | 8 => "8" | 9 => "9" | 10 => "a" | 11 => "b"
  | 12 => "c" | 13 => "d" | 14 => "e" | _ => "f"
  end%char%nat.

(** One code unit inside a quoted JSON string. *)
Definition escapeUnit (c : ascii) : string :=
  let n := nat_of_ascii c in
  if (n =? 34)%nat then "\" +:+ dquote
  else if (n =? 92)%nat then "\\"
  else if (n =? 8)%nat then "\b"
  else if (n =? 9)%nat then "\t"
  else if (n =? 10)%nat then "\n"
  else if (n =? 12)%nat then "\f"
  else if (n =? 13)%nat then "\r"
  else if (n <? 32)%nat then
    "\u00" +:+ String (hexDigit (n / 16)) (String (hexDigit (n mod 16)) "")
  else String c "".

Fixpoint escapeUnits (s : string) : string :=
  match s with
  | EmptyString => EmptyString
  | String c r => escapeUnit c +:+ escapeUnits r
  end.

Definition QuoteJSONString (s : string) : string :=
  dquote +:+ escapeUnits s +:+ dquote.

Fixpoint joinWith (sep : string) (parts : list string) : string :=
  match parts with
  | [] => ""
  | [p] => p
  | p :: r => p +:+ sep +:+ joinWith sep r
  end.

Fixpoint stringify (v : value) : option string :=
  match v with
  | VUndef => None
  | VNull => Some "null"
  | VBool true => Some "true"
  | VBool false => Some "false"
  | VNum n => Some (pretty n)
  | VStr s => Some (QuoteJSONString s)
  | VArr items =>
      let elements :=
        (fix go (xs : list value) : list string :=
           match xs with
           | [] => []
           | x :: r => default "null" (stringify x) :: go r
           end) items in
      Some ("[" +:+ joinWith "," elements +:+ "]")
  | VObj props =>
      let members :=
        (fix go (ps : list (string * value)) : list string :=
           match ps with
           | [] => []
           | (k, x) :: r =>
               match stringify x with
               | Some sx => (QuoteJSONString k +:+ ":" +:+ sx) :: go r
               | None => go r
               end
           end) props in
      Some ("{" +:+ joinWith "," members +:+ "}")
  end.

(** A key made of digits only.  JavaScript lists the keys that are array
    indices before the other keys of an object, in ascending order. *)
Definition indexLike (k : string) : bool :=
  negb (String.eqb k "") && JsString.allUnits JsString.isDigit k.

Fixpoint distinct (ks : list string) : bool :=
  match ks with
  | [] => true
  | k :: r => negb (existsb (String.eqb k) r) && distinct r
  end.

(** The values whose serialization, as [stringify] gives it, is the
    text that [JSON.stringify] produces: every number in them is a safe
    integer, and every object in them has distinct keys in insertion
    order, none of them made of digits only. *)
Fixpoint exact (v : value) : bool :=
  match v with
  | VNum n => Js.safeInteger n
  | VArr items =>
      (fix each (xs : list value) : bool :=
         match xs with
         | [] => true
         | x :: r => exact x && each r
         end) items
  | VObj props =>
      distinct (List.map fst props)
      && forallb (fun p => negb (indexLike (fst p))) props
      && (fix each (ps : list (string * value)) : bool :=
            match ps with
            | [] => true
            | (_, x) :: r => exact x && each r
            end) props
  | _ => true
  end.

End Json.

(** ** Removing a markdown fence

    The statements between the upstream call and [JSON.parse], the same
    in [generatePresentationStructure] and in [enhancePresentation]:
    the text that is handed to [JSON.parse]. *)

Definition fence : string := "```".
Definition fenceJson : string := "```json".

Definition stripFence (response : string) : string :=
  let jsonStr := JsString.trim response in
  let jsonStr :=
    if JsString.startsWith jsonStr fenceJson then JsString.sliceFrom 7 jsonStr
    else if JsString.startsWith jsonStr fence then JsString.sliceFrom 3 jsonStr
    else jsonStr in
  let jsonStr :=
    if JsString.endsWith jsonStr fence then JsString.sliceDropEnd 3 jsonStr
    else jsonStr in
  JsString.trim jsonStr.

(** ** Errors, the process state and the environment *)

(** A thrown [Error] object: its [message], and the [code] and
    [response] (status and body) that axios and Node attach. *)
Record JsError := mkJsError {
  message : string;
  code : option string;
  response : option (Z * value) }.

(** [new Error(msg)] *)
Definition newError (msg : string) : JsError :=
  {| message := msg; code := None; response := None |}.

(** The errors the runtime itself raises. *)
Inductive Fault :=
  | ReadOfNullish     (* TypeError: property read on null or undefined *)
  | WriteToNullish    (* TypeError: property write on null or undefined *)
  | NotAFunction      (* TypeError: call of a value that is no function *)
  | NoPrimitive       (* TypeError: an object that has no primitive value *)
  | InvalidJson       (* SyntaxError of JSON.parse *)
  | InvalidUrl.       (* TypeError of new URL, code ERR_INVALID_URL *)

Record ChatMessage := mkMessage { role : string; content : string }.

Inductive RequestBody :=
  | AnthropicBody (model : string) (max_tokens : Z) (system : string)
                  (messages : list ChatMessage)
  | OpenAIBody (model : string) (messages : list ChatMessage)
               (max_tokens : Z) (temperature : Q).

(** What [axios.post] is called with. *)
Record Request := mkRequest {
  url : string;
  body : RequestBody;
  headers : list (string * string);
  timeout : Z }.

(** How [axios.post] settles: with the decoded body of a 2xx response,
    or with an error. *)
Inductive Outcome :=
  | Resolved (data : value)
  | Rejected (error : JsError).

(** [apiStatus] *)
Record ApiStatus := mkApiStatus {
  configured : bool;
  lastCheck : option string;
  healthy : bool }.

(** The mutable state of the process: [apiStatus], the requests issued
    upstream so far, and how many times the clock and the identifier
    generator have been read. *)
Record World := mkWorld {
  apiStatus : ApiStatus;
  sent : list Request;
  clock : nat;
  uuids : nat }.

(** The three settings read from the process environment. *)
Record Config := mkConfig {
  MEGALLM_API_KEY : string;
  MEGALLM_MODEL : string;
  MEGALLM_API_URL : string }.

(** [process.env.X || d]: an unset and an empty variable both give [d]. *)
Definition envOr (getenv : string -> option string) (x d : string) : string :=
  match getenv x with
  | Some s => if String.eqb s "" then d else s
  | None => d
  end.

Definition loadConfig (getenv : string -> option string) : Config :=
  {| MEGALLM_API_KEY := envOr getenv "MEGALLM_API_KEY" "";
     MEGALLM_MODEL := envOr getenv "MEGALLM_MODEL" "claude-opus-4-5-20251101";
     MEGALLM_API_URL :=
       envOr getenv "MEGALLM_API_URL" "https://api.anthropic.com/v1/messages" |}.

(** What the server does not define itself: the libraries it calls, the
    remote endpoint, the clock, and two long text constants.
    [axios_post n r] is how the [n]-th upstream request of the process
    settles when it is [r]. *)
Record Runtime := mkRuntime {
  JSON_parse : string -> option value;       (* None: SyntaxError *)
  URL_hostname : string -> option string;    (* new URL(u).hostname; None: TypeError *)
  axios_post : nat -> Request -> Outcome;
  Date_toISOString : nat -> string;          (* the n-th reading of the clock *)
  uuidv4 : nat -> string;                    (* the n-th identifier *)
  faultMessage : Fault -> string;            (* message of a runtime error *)
  structureSystemPrompt : string;            (* systemPrompt of stage 1 *)
  enhanceSystemPrompt : string }.            (* systemPrompt of stage 2 *)

(** A computation either returns or throws, and changes the state. *)
Inductive Res (A : Type) :=
  | Ok (a : A)
  | Throw (e : JsError).
Arguments Ok {A} a.
Arguments Throw {A} e.

Definition M (A : Type) : Type := World -> Res A * World.

Definition ret {A} (a : A) : M A := fun w => (Ok a, w).
Definition throw {A} (e : JsError) : M A := fun w => (Throw e, w).
Definition bind {A B} (m : M A) (k : A -> M B) : M B :=
  fun w => match m w with
           | (Ok a, w') => k a w'
           | (Throw e, w') => (Throw e, w')
           end.
(** [try { m } catch (error) { h error }] *)
Definition tryCatch {A} (m : M A) (h : JsError -> M A) : M A :=
  fun w => match m w with
           | (Ok a, w') => (Ok a, w')
           | (Throw e, w') => h e w'
           end.

Notation "'let*' x ':=' m 'in' k" := (bind m (fun x => k))
  (at level 10, x name, m at level 100, k at level 200).
Notation "m ';;' k" := (bind m (fun _ => k))
  (at level 100, k at level 200, right associativity).

(** ** The server *)

Section Server.

Variable cfg : Config.
Variable rt : Runtime.

Definition raise {A} (f : Fault) : M A :=
  throw {| message := faultMessage rt f;
           code := match f with InvalidUrl => Some "ERR_INVALID_URL" | _ => None end;
           response := None |}.

(** A property read inside a computation. *)
Definition get (v : value) (k : string) : M value :=
  match Js.Get v k with
  | Some x => ret x
  | None => raise ReadOfNullish
  end.

(** The receiver of [x.trim()]: only a string has the method. *)
Definition trimReceiver (x : value) : M string :=
  match x with
  | VStr s => ret s
  | VUndef | VNull => raise ReadOfNullish
  | _ => raise NotAFunction
  end.

(** [JSON.parse(s)] *)
Definition parseJson (s : string) : M value :=
  match JSON_parse rt s with
  | Some v => ret v
  | None => raise InvalidJson
  end.

(** [v.k = x] inside a computation: a TypeError on [null] and
    [undefined]. *)
Definition put (v : value) (k : string) (x : value) : M value :=
  match v with
  | VUndef | VNull => raise WriteToNullish
  | _ => ret (Js.Put v k x)
  end.

(** [new Date().toISOString()] *)
Definition now : M string :=
  fun w => (Ok (Date_toISOString rt (clock w)),
            {| apiStatus := apiStatus w; sent := sent w;
               clock := S (clock w); uuids := uuids w |}).

(** [uuidv4()] *)
Definition freshId : M string :=
  fun w => (Ok (uuidv4 rt (uuids w)),
            {| apiStatus := apiStatus w; sent := sent w;
               clock := clock w; uuids := S (uuids w) |}).

(** [apiStatus.healthy = b; apiStatus.lastCheck = new Date().toISOString()] *)
Definition recordHealth (b : bool) : M unit :=
  let* t := now in
  fun w => (Ok tt,
            {| apiStatus := {| configured := configured (apiStatus w);
                               lastCheck := Some t;
                               healthy := b |};
               sent := sent w; clock := clock w; uuids := uuids w |}).

(** [await axios.post(url, body, {headers, timeout})] *)
Definition axiosPost (r : Request) : M value :=
  fun w =>
    let w' := {| apiStatus := apiStatus w; sent := sent w ++ [r];
                 clock := clock w; uuids := uuids w |} in
    match axios_post rt (length (sent w)) r with
    | Resolved data => (Ok data, w')
    | Rejected e => (Throw e, w')
    end.

(** [x?.k]: [undefined] when [x] is [null] or [undefined]. *)
Definition optChain (x : value) (k : string) : value :=
  default VUndef (Js.Get x k).

(** The message of the error that the catch block of [callMegaLLM]
    builds for a caught [error].  The template literal of the last
    branch but one converts the upstream's message to text, which can
    throw; [rethrowFails] tells when, and [callMegaLLM] then throws the
    TypeError of the conversion and not an error with this message. *)
Definition friendlyMessage (error : JsError) : string :=
  let statusCode := fst <$> response error in
  let errorData := default VUndef (snd <$> response error) in
  let upstreamMessage := optChain (optChain errorData "error") "message" in
  if bool_decide (statusCode = Some 401) then
    "Invalid API key. Please check your MEGALLM_API_KEY environment variable."
  else if bool_decide (statusCode = Some 429) then
    "API rate limit exceeded. Please wait a moment and try again."
  else if bool_decide (statusCode = Some 500) || bool_decide (statusCode = Some 502)
          || bool_decide (statusCode = Some 503) then
    "AI service is temporarily unavailable. Please try again later."
  else if bool_decide (code error = Some "ECONNABORTED") then
    "Request timed out. The AI service is taking too long to respond. Please try again."
  else if bool_decide (code error = Some "ENOTFOUND")
          || bool_decide (code error = Some "ECONNREFUSED") then
    "Cannot connect to AI service. Please check your internet connection."
  else if Js.truthy upstreamMessage then
    "AI Service Error: " +:+ Js.ToString upstreamMessage
  else
    "Failed to generate presentation. Please try again.".

(** The catch block takes the branch of the template literal and the
    conversion in it throws. *)
Definition rethrowFails (error : JsError) : bool :=
  let statusCode := fst <$> response error in
  let errorData := default VUndef (snd <$> response error) in
  let upstreamMessage := optChain (optChain errorData "error") "message" in
  if bool_decide (statusCode = Some 401) then false
  else if bool_decide (statusCode = Some 429) then false
  else if bool_decide (statusCode = Some 500) || bool_decide (statusCode = Some 502)
          || bool_decide (statusCode = Some 503) then false
  else if bool_decide (code error = Some "ECONNABORTED") then false
  else if bool_decide (code error = Some "ENOTFOUND")
          || bool_decide (code error = Some "ECONNREFUSED") then false
  else if Js.truthy upstreamMessage then negb (Js.converts upstreamMessage)
  else false.

Definition missingKeyMessage : string :=
  "API key not configured. Set MEGALLM_API_KEY environment variable.".

Definition isSystem (m : ChatMessage) : bool := String.eqb (role m) "system".

(** [new URL(MEGALLM_API_URL).hostname === 'api.anthropic.com'] *)
Definition isAnthropicHost (hostname : string) : bool :=
  String.eqb hostname "api.anthropic.com".

(** The body and headers [callMegaLLM] builds for either format. *)
Definition buildRequest (isAnthropicFormat : bool)
    (messages : list ChatMessage) (maxTokens : Z) : Request :=
  if isAnthropicFormat then
    let systemMsg := List.find isSystem messages in
    let userMsgs := List.filter (fun m => negb (isSystem m)) messages in
    {| url := MEGALLM_API_URL cfg;
       body := AnthropicBody (MEGALLM_MODEL cfg) maxTokens
                 (default "" (content <$> systemMsg))
                 (List.map (fun m => {| role := role m; content := content m |}) userMsgs);
       headers := [("x-api-key", MEGALLM_API_KEY cfg);
                   ("Content-Type", "application/json");
                   ("anthropic-version", "2023-06-01")];
       timeout := 120000 |}
  else
    {| url := MEGALLM_API_URL cfg;
       body := OpenAIBody (MEGALLM_MODEL cfg) messages maxTokens (7 # 10);
       headers := [("Authorization", "Bearer " +:+ MEGALLM_API_KEY cfg);
                   ("Content-Type", "application/json")];
       timeout := 120000 |}.

Definition callMegaLLM (messages : list ChatMessage) (maxTokens : Z) : M value :=
  if String.eqb (MEGALLM_API_KEY cfg) "" then
    throw (newError missingKeyMessage)
  else
    tryCatch
      (let* hostname :=
         match URL_hostname rt (MEGALLM_API_URL cfg) with
         | Some h => ret h
         | None => raise InvalidUrl
         end in
       let isAnthropicFormat := isAnthropicHost hostname in
       let* data := axiosPost (buildRequest isAnthropicFormat messages maxTokens) in
       recordHealth true ;;
       if isAnthropicFormat then
         let* c := get data "content" in
         let* c0 := get c "0" in
         get c0 "text"
       else
         let* cs := get data "choices" in
         let* c0 := get cs "0" in
         let* m := get c0 "message" in
         get m "content")
      (fun error =>
         recordHealth false ;;
         if rethrowFails error then raise NoPrimitive
         else throw (newError (friendlyMessage error))).

(** *** Stage 1 *)

(** The route hands the stage the topic it has validated, a string,
    which the template literal takes as it is. *)
Definition userPrompt (topic : value) : string :=
  "Create a comprehensive, professional presentation about: "
  +:+ dquote +:+ Js.ToString topic +:+ dquote +:+ "

Make it visually engaging with charts, images, and varied layouts. Include realistic data for any charts. Make it presentation-ready.".

Definition generatePresentationStructure (topic : value) : M value :=
  let* response :=
    callMegaLLM [ {| role := "system"; content := structureSystemPrompt rt |};
                  {| role := "user"; content := userPrompt topic |} ] 8000 in
  let* text := trimReceiver response in
  parseJson (stripFence text).

(** *** Stage 2 *)

(** [x.slice(0, 5)]: arrays and strings have the method. *)
Definition sliceFirst5 (x : value) : M value :=
  match x with
  | VArr items => ret (VArr (take 5 items))
  | VStr s => ret (VStr (JsString.sliceTo 5 s))
  | VUndef | VNull => raise ReadOfNullish
  | _ => raise NotAFunction
  end.

(** The try block of [enhancePresentation] up to [JSON.parse]. *)
Definition fetchEnhancements (presentation : value) : M value :=
  let* slides := get presentation "slides" in
  let* first5 := sliceFirst5 slides in
  let* response :=
    callMegaLLM
      [ {| role := "system"; content := enhanceSystemPrompt rt |};
        {| role := "user";
           content := "Enhance this presentation: "
                      +:+ default "undefined" (Json.stringify first5) |} ] 4000 in
  let* text := trimReceiver response in
  parseJson (stripFence text).

(** How a run of statements ends. *)
Inductive Completion :=
  | Normal
  | Abrupt (f : Fault).

(** The body of the [forEach] callback for one entry [e], acting on the
    document: [None] when it throws, which it does before any write,
    while it evaluates [presentation.slides[e.slideIndex]] in the test:
    on the read of [e.slideIndex], on the conversion of that value to a
    property key, or on the read of the slide. *)
Definition applyEntry (presentation e : value) : option value :=
  slides ← Js.Get presentation "slides";
  slideIndex ← Js.Get e "slideIndex";
  k ← Js.ToPropertyKey slideIndex;
  slide ← Js.Get slides k;
  if Js.truthy slide then
    enhancedNotes ← Js.Get e "enhancedNotes";
    let presentation :=
      Js.updateAt presentation "slides" (fun slides =>
        Js.updateAt slides k (fun slide => Js.Put slide "enhancedNotes" enhancedNotes)) in
    transition ← Js.Get e "transition";
    Some (Js.updateAt presentation "slides" (fun slides =>
            Js.updateAt slides k (fun slide => Js.Put slide "transition" transition)))
  else Some presentation.

(** The TypeError with which the callback throws on entry [e]: a read
    on [null] or [undefined], unless both [presentation.slides] and
    [e.slideIndex] can be read, the slides are an object to read from,
    and the key cannot be made. *)
Definition entryFault (presentation e : value) : Fault :=
  match Js.Get presentation "slides", Js.Get e "slideIndex" with
  | Some (VUndef | VNull), Some _ => ReadOfNullish
  | Some _, Some slideIndex =>
      if Js.converts slideIndex then ReadOfNullish else NoPrimitive
  | _, _ => ReadOfNullish
  end.

(** [entries.forEach(e => ...)]: the writes of the entries before a
    throwing one stay in the document. *)
Fixpoint forEachEntry (entries : list value) (presentation : value)
  : Completion * value :=
  match entries with
  | [] => (Normal, presentation)
  | e :: r =>
      match applyEntry presentation e with
      | Some presentation' => forEachEntry r presentation'
      | None => (Abrupt (entryFault presentation e), presentation)
      end
  end.

(** The try block of [enhancePresentation] after [JSON.parse]: the
    statements that write into the document, with the document they
    leave behind whether they complete or throw. *)
Definition applyEnhancements (enhancements presentation : value)
  : Completion * value :=
  match Js.Get enhancements "enhancedSlides" with
  | None => (Abrupt ReadOfNullish, presentation)
  | Some (VArr entries) =>
      match forEachEntry entries presentation with
      | (Normal, presentation') =>
          let keyTakeaways := default VUndef (Js.Get enhancements "keyTakeaways") in
          if Js.truthy keyTakeaways
          then (Normal, Js.Put presentation' "keyTakeaways" keyTakeaways)
          else (Normal, presentation')
      | abrupt => abrupt
      end
  | Some (VUndef | VNull) => (Abrupt ReadOfNullish, presentation)
  | Some _ => (Abrupt NotAFunction, presentation)
  end.

(** Both the try block and the catch block end in [return presentation],
    the one object that the merge writes into. *)
Definition enhancePresentation (presentation : value) : M value :=
  tryCatch
    (let* enhancements := fetchEnhancements presentation in
     ret (snd (applyEnhancements enhancements presentation)))
    (fun _ => ret presentation).

(** *** The routes *)

Record HttpResponse := mkResponse { status : Z; json : value }.

Definition errorBody (msg : string) : value := VObj [("error", VStr msg)].

(** [app.post('/api/generate', ...)], on the parsed request body. *)
Definition generate (reqBody : value) : World -> HttpResponse * World :=
  fun w =>
    let attempt : M HttpResponse :=
      let* topic := get reqBody "topic" in
      if negb (Js.truthy topic) then
        ret {| status := 400; json := errorBody "Please provide a topic" |}
      else
        let* t := trimReceiver topic in
        if (String.length (JsString.trim t) =? 0)%nat then
          ret {| status := 400; json := errorBody "Please provide a topic" |}
        else
          let* presentation := generatePresentationStructure topic in
          let* enhancedPresentation := enhancePresentation presentation in
          let* id := freshId in
          let* p := put enhancedPresentation "id" (VStr id) in
          let* createdAt := now in
          let* p := put p "createdAt" (VStr createdAt) in
          let* p := put p "topic" topic in
          ret {| status := 200; json := p |} in
    match attempt w with
    | (Ok res, w') => (res, w')
    | (Throw error, w') =>
        ({| status := 500;
            json := errorBody (if String.eqb (message error) ""
                               then "Failed to generate presentation"
                               else message error) |}, w')
    end.

(** [app.get('/api/health', ...)] *)
Definition health (w : World) : HttpResponse :=
  let st := apiStatus w in
  let status :=
    VObj [ ("status", VStr (if configured st then "ok" else "unconfigured"));
           ("model", VStr (MEGALLM_MODEL cfg));
           ("apiConfigured", VBool (configured st));
           ("lastCheck", match lastCheck st with Some t => VStr t | None => VNull end);
           ("healthy", VBool (healthy st)) ] in
  let status :=
    if negb (configured st)
    then Js.Put status "message" (VStr missingKeyMessage)
    else status in
  {| status := 200; json := status |}.

(** The state after the module's top-level statements have run. *)
Definition startup : World :=
  {| apiStatus := {| configured := negb (String.eqb (MEGALLM_API_KEY cfg) "");
                     lastCheck := None;
                     healthy := false |};
     sent := []; clock := 0; uuids := 0 |}.

End Server.

(** ** The earlier revision of the adapter and of the health route

    The earlier revision of [server.js] has no [apiStatus]: its adapter
    builds the request with the same statements, reads the reply the
    same way, and rethrows every failure under one prefix; its health
    route has a fixed answer. *)

Module Earlier.

Section Server.

Variable cfg : Config.
Variable rt : Runtime.

(** [error.response?.data?.error?.message || error.message], as the
    text that the template literal of the catch block makes of it when
    the conversion returns. *)
Definition apiErrorDetail (error : JsError) : string :=
  let errorData := default VUndef (snd <$> response error) in
  let upstreamMessage := optChain (optChain errorData "error") "message" in
  if Js.truthy upstreamMessage then Js.ToString upstreamMessage
  else message error.

(** The conversion inside the template literal throws. *)
Definition detailFails (error : JsError) : bool :=
  let errorData := default VUndef (snd <$> response error) in
  let upstreamMessage := optChain (optChain errorData "error") "message" in
  Js.truthy upstreamMessage && negb (Js.converts upstreamMessage).

Definition callMegaLLM (messages : list ChatMessage) (maxTokens : Z) : M value :=
  if String.eqb (MEGALLM_API_KEY cfg) "" then
    throw (newError missingKeyMessage)
  else
    tryCatch
      (let* hostname :=
         match URL_hostname rt (MEGALLM_API_URL cfg) with
         | Some h => ret h
         | None => raise rt InvalidUrl
         end in
       let isAnthropicFormat := isAnthropicHost hostname in
       let* data := axiosPost rt (buildRequest cfg isAnthropicFormat messages maxTokens) in
       if isAnthropicFormat then
         let* c := get rt data "content" in
         let* c0 := get rt c "0" in
         get rt c0 "text"
       else
         let* cs := get rt data "choices" in
         let* c0 := get rt cs "0" in
         let* m := get rt c0 "message" in
         get rt m "content")
      (fun error =>
         if detailFails error then raise rt NoPrimitive
         else throw (newError ("API Error: " +:+ apiErrorDetail error))).

(** [app.get('/api/health', ...)] *)
Definition health : HttpResponse :=
  {| status := 200;
     json := VObj [("status", VStr "ok"); ("model", VStr (MEGALLM_MODEL cfg))] |}.

End Server.

End Earlier.

(** ** Vocabulary of the statements *)

(** The branch of the catch block of [callMegaLLM] that an error takes. *)
Inductive ErrorClass :=
  | AuthenticationRejected
  | RateLimited
  | UpstreamUnavailable
  | TimedOut
  | Unreachable
  | GenericUpstream.

Definition classByCode (error : JsError) : ErrorClass :=
  if bool_decide (code error = Some "ECONNABORTED") then TimedOut
  else if bool_decide (code error = Some "ENOTFOUND")
          || bool_decide (code error = Some "ECONNREFUSED") then Unreachable
  else GenericUpstream.

Definition errorClass (error : JsError) : ErrorClass :=
  let statusCode := fst <$> response error in
  if bool_decide (statusCode = Some 401) then AuthenticationRejected
  else if bool_decide (statusCode = Some 429) then RateLimited
  else if bool_decide (statusCode = Some 500) || bool_decide (statusCode = Some 502)
          || bool_decide (statusCode = Some 503) then UpstreamUnavailable
  else classByCode error.

(** [error.response?.data?.error?.message] *)
Definition upstreamMessage (error : JsError) : value :=
  optChain (optChain (default VUndef (snd <$> response error)) "error") "message".

(** The message of each class when the upstream sends none of its own. *)
Definition fixedMessage (c : ErrorClass) : string :=
  match c with
  | AuthenticationRejected =>
      "Invalid API key. Please check your MEGALLM_API_KEY environment variable."
  | RateLimited => "API rate limit exceeded. Please wait a moment and try again."
  | UpstreamUnavailable =>
      "AI service is temporarily unavailable. Please try again later."
  | TimedOut =>
      "Request timed out. The AI service is taking too long to respond. Please try again."
  | Unreachable =>
      "Cannot connect to AI service. Please check your internet connection."
  | GenericUpstream => "Failed to generate presentation. Please try again."
  end.


(** [null] and [undefined], on which a property write throws. *)
Definition nullish (v : value) : bool :=
  match v with
  | VUndef | VNull => true
  | _ => false
  end.

(** Two states that differ at most in the health flag and its time. *)
Definition sameButHealth (w1 w2 : World) : Prop :=
  configured (apiStatus w1) = configured (apiStatus w2)
  /\ sent w1 = sent w2 /\ clock w1 = clock w2 /\ uuids w1 = uuids w2.

(** A slide and its merged version agree on every property other than
    [enhancedNotes] and [transition]. *)
Definition slideFrame (s s' : value) : Prop :=
  forall k, k <> "enhancedNotes" -> k <> "transition" -> Js.Get s' k = Js.Get s k.

(** Some entry of [enhancedSlides] has a [slideIndex] that names slide [i]. *)
Definition addressedBy (entries : list value) (i : nat) : Prop :=
  exists e idx, e ∈ entries /\ Js.Get e "slideIndex" = Some idx
                /\ Js.ToString idx = pretty i.

Definition addressed (enhancements : value) (i : nat) : Prop :=
  exists entries, Js.Get enhancements "enhancedSlides" = Some (VArr entries)
                  /\ addressedBy entries i.

(** The slides after a merge against the slides before: as many, each
    agreeing with its old version outside the two merged properties, and
    unchanged when no entry names it ([P]) or when it is falsy. *)
Definition slidesFrame (P : nat -> Prop) (items items' : list value) : Prop :=
  length items' = length items
  /\ forall i s, items !! i = Some s ->
       exists s', items' !! i = Some s' /\ slideFrame s s'
                  /\ (~ P i -> s' = s) /\ (Js.truthy s = false -> s' = s).

(** The text [callMegaLLM] returns from a reply body:
    [data.content[0].text] or [data.choices[0].message.content];
    [None] when a read on the way throws. *)
Definition textOfReply (isAnthropicFormat : bool) (data : value) : option value :=
  if isAnthropicFormat then
    c ← Js.Get data "content"; c0 ← Js.Get c "0"; Js.Get c0 "text"
  else
    cs ← Js.Get data "choices"; c0 ← Js.Get cs "0";
    m ← Js.Get c0 "message"; Js.Get m "content".

(** The state once request [r] has gone out. *)
Definition withRequest (r : Request) (w : World) : World :=
  {| apiStatus := apiStatus w; sent := sent w ++ [r];
     clock := clock w; uuids := uuids w |}.

(** The state once the health flag has been set to [b] and stamped. *)
Definition withHealth (rt : Runtime) (b : bool) (w : World) : World :=
  {| apiStatus := {| configured := configured (apiStatus w);
                     lastCheck := Some (Date_toISOString rt (clock w));
                     healthy := b |};
     sent := sent w; clock := S (clock w); uuids := uuids w |}.

(** The message of the errors that take no special branch. *)
Definition genericMessage : string :=
  "Failed to generate presentation. Please try again.".

(** The two messages of stage 1 and of stage 2. *)
Definition structureMessages (rt : Runtime) (topic : value) : list ChatMessage :=
  [ {| role := "system"; content := structureSystemPrompt rt |};
    {| role := "user"; content := userPrompt topic |} ].

Definition enhanceMessages (rt : Runtime) (shown : value) : list ChatMessage :=
  [ {| role := "system"; content := enhanceSystemPrompt rt |};
    {| role := "user";
       content := "Enhance this presentation: "
                  +:+ default "undefined" (Json.stringify shown) |} ].

(** [w'] comes after [w] with at most [n] more upstream requests, the
    same [configured] and no identifier drawn. *)
Definition extends (n : nat) (w w' : World) : Prop :=
  (exists l, sent w' = (sent w ++ l)%list /\ (length l <= n)%nat)
  /\ configured (apiStatus w') = configured (apiStatus w)
  /\ uuids w' = uuids w
  /\ (clock w <= clock w')%nat.

(** The reply of the route's catch block. *)
Definition errorReply (error : JsError) : HttpResponse :=
  {| status := 500;
     json := errorBody (if String.eqb (message error) ""
                        then "Failed to generate presentation"
                        else message error) |}.

(** The error object the runtime throws for a fault. *)
Definition faultError (rt : Runtime) (f : Fault) : JsError :=
  {| message := faultMessage rt f;
     code := match f with InvalidUrl => Some "ERR_INVALID_URL" | _ => None end;
     response := None |}.

(** The error that the catch block of [callMegaLLM] throws for a caught
    [error]. *)
Definition rethrown (rt : Runtime) (error : JsError) : JsError :=
  if rethrowFails error then faultError rt NoPrimitive
  else newError (friendlyMessage error).

(** The state once an identifier, and then the time, have been read. *)
Definition withId (w : World) : World :=
  {| apiStatus := apiStatus w; sent := sent w; clock := clock w; uuids := S (uuids w) |}.
Definition withTick (w : World) : World :=
  {| apiStatus := apiStatus w; sent := sent w; clock := S (clock w); uuids := uuids w |}.

(** The second upstream call settles so that stage 2 fails before the
    merge: it is rejected, or its body has no text, or the text is no
    string, or the stripped text does not parse. *)
Definition failsBeforeMerge (rt : Runtime) (isAnthropicFormat : bool) (o : Outcome) : Prop :=
  match o with
  | Rejected _ => True
  | Resolved data =>
      match textOfReply isAnthropicFormat data with
      | Some (VStr s) => JSON_parse rt (stripFence s) = None
      | _ => True
      end
  end.

(** The three properties the route writes last. *)
Definition stamped (doc : value) (id createdAt : string) (topic : value) : value :=
  Js.Put (Js.Put (Js.Put doc "id" (VStr id)) "createdAt" (VStr createdAt)) "topic" topic.

(** ** A concrete configuration and environment

    Used to run the server on given inputs.  The endpoint is the default
    one; the first upstream reply carries a two-slide document and the
    second an enhancement whose second entry is [null].  [parse] is
    [JSON.parse] on the texts of these two replies. *)

Module Example.

Definition cfg : Config :=
  {| MEGALLM_API_KEY := "test-key";
     MEGALLM_MODEL := "claude-opus-4-5-20251101";
     MEGALLM_API_URL := "https://api.anthropic.com/v1/messages" |}.

Definition noKey : Config :=
  {| MEGALLM_API_KEY := "";
     MEGALLM_MODEL := "claude-opus-4-5-20251101";
     MEGALLM_API_URL := "https://api.anthropic.com/v1/messages" |}.

Definition slide0 : value :=
  VObj [("type", VStr "title"); ("title", VStr "Solar"); ("content", VArr []);
        ("notes", VStr "Welcome")].
Definition slide1 : value :=
  VObj [("type", VStr "content"); ("title", VStr "Wind");
        ("content", VArr [VStr "Onshore"; VStr "Offshore"]); ("notes", VStr "Compare")].

Definition stage1Document : value :=
  VObj [("title", VStr "T"); ("subtitle", VStr "S");
        ("slides", VArr [slide0; slide1]); ("theme", VObj [])].

Definition brokenEnhancement : value :=
  VObj [("enhancedSlides",
         VArr [VObj [("slideIndex", VNum 0); ("enhancedNotes", VStr "More notes");
                     ("transition", VStr "Next")];
               VNull]);
        ("keyTakeaways", VArr [VStr "K"])].

Definition textOf (v : value) : string := default "" (Json.stringify v).

Definition parse (s : string) : option value :=
  if String.eqb s (textOf stage1Document) then Some stage1Document
  else if String.eqb s (textOf brokenEnhancement) then Some brokenEnhancement
  else None.

Definition hostname (u : string) : option string :=
  if String.eqb u "https://api.anthropic.com/v1/messages"
  then Some "api.anthropic.com" else None.

Definition anthropicReply (text : string) : Outcome :=
  Resolved (VObj [("content", VArr [VObj [("type", VStr "text"); ("text", VStr text)]])]).

Definition upstream (n : nat) (r : Request) : Outcome :=
  match n with
  | 0%nat => anthropicReply (textOf stage1Document)
  | 1%nat => anthropicReply (textOf brokenEnhancement)
  | _ => Rejected {| message := "getaddrinfo ENOTFOUND";
                     code := Some "ENOTFOUND"; response := None |}
  end.

Definition rt : Runtime :=
  {| JSON_parse := parse;
     URL_hostname := hostname;
     axios_post := upstream;
     Date_toISOString := fun n => "2025-01-01T00:00:00." +:+ pretty n +:+ "Z";
     uuidv4 := fun n => "uuid-" +:+ pretty n;
     faultMessage := fun f =>
       match f with
       | ReadOfNullish => "Cannot read properties"
       | WriteToNullish => "Cannot set properties"
       | NotAFunction => "is not a function"
       | NoPrimitive => "Cannot convert object to primitive value"
       | InvalidJson => "Unexpected token"
       | InvalidUrl => "Invalid URL"
       end;
     structureSystemPrompt := "You are an expert presentation designer.";
     enhanceSystemPrompt := "You are enhancing a presentation." |}.

Definition request : value := VObj [("topic", VStr "Renewable Energy")].


End Example.

(** A second environment: an OpenAI-compatible endpoint whose first
    reply is the same document inside a fence and whose second reply is
    a well-formed enhancement of slide 1. *)

Module Scenario.

Definition cfg : Config :=
  {| MEGALLM_API_KEY := "test-key";
     MEGALLM_MODEL := "some-model";
     MEGALLM_API_URL := "https://llm.example.com/v1/chat/completions" |}.

Definition enhancement : value :=
  VObj [("enhancedSlides",
         VArr [VObj [("slideIndex", VNum 1); ("enhancedNotes", VStr "Details");
                     ("transition", VStr "Finally")]]);
        ("keyTakeaways", VArr [VStr "K1"; VStr "K2"])].

Definition fenced (t : string) : string := "```json
" +:+ t +:+ "
```".

Definition parse (s : string) : option value :=
  if String.eqb s (Example.textOf Example.stage1Document)
  then Some Example.stage1Document
  else if String.eqb s (Example.textOf enhancement) then Some enhancement
  else None.

Definition hostname (u : string) : option string :=
  if String.eqb u "https://llm.example.com/v1/chat/completions"
  then Some "llm.example.com" else None.

Definition openaiReply (text : string) : Outcome :=
  Resolved (VObj [("choices",
                   VArr [VObj [("message",
                                VObj [("role", VStr "assistant");
                                      ("content", VStr text)])]])]).

Definition rateLimited : JsError :=
  {| message := "Request failed with status code 429";
     code := Some "ERR_BAD_REQUEST";
     response := Some (429, VObj [("error", VObj [("message", VStr "slow down")])]) |}.

Definition upstream (n : nat) (r : Request) : Outcome :=
  match n with
  | 0%nat => openaiReply (fenced (Example.textOf Example.stage1Document))
  | 1%nat => openaiReply (Example.textOf enhancement)
  | _ => Rejected rateLimited
  end.

Definition rt : Runtime :=
  {| JSON_parse := parse;
     URL_hostname := hostname;
     axios_post := upstream;
     Date_toISOString := Date_toISOString Example.rt;
     uuidv4 := uuidv4 Example.rt;
     faultMessage := faultMessage Example.rt;
     structureSystemPrompt := structureSystemPrompt Example.rt;
     enhanceSystemPrompt := enhanceSystemPrompt Example.rt |}.

(** The same endpoint when every request is turned away. *)
Definition rtDown : Runtime :=
  {| JSON_parse := parse;
     URL_hostname := hostname;
     axios_post := fun _ _ => Rejected rateLimited;
     Date_toISOString := Date_toISOString Example.rt;
     uuidv4 := uuidv4 Example.rt;
     faultMessage := faultMessage Example.rt;
     structureSystemPrompt := structureSystemPrompt Example.rt;
     enhanceSystemPrompt := enhanceSystemPrompt Example.rt |}.

(** The same endpoint when only the second request is turned away. *)
Definition rtStage2Down : Runtime :=
  {| JSON_parse := parse;
     URL_hostname := hostname;
     axios_post := fun n r => match n with
                              | 0%nat => upstream 0 r
                              | _ => Rejected rateLimited
                              end;
     Date_toISOString := Date_toISOString Example.rt;
     uuidv4 := uuidv4 Example.rt;
     faultMessage := faultMessage Example.rt;
     structureSystemPrompt := structureSystemPrompt Example.rt;
     enhanceSystemPrompt := enhanceSystemPrompt Example.rt |}.

(** The same endpoint when it answers 200 with an empty list of choices. *)
Definition rtEmpty : Runtime :=
  {| JSON_parse := parse;
     URL_hostname := hostname;
     axios_post := fun _ _ => Resolved (VObj [("choices", VArr [])]);
     Date_toISOString := Date_toISOString Example.rt;
     uuidv4 := uuidv4 Example.rt;
     faultMessage := faultMessage Example.rt;
     structureSystemPrompt := structureSystemPrompt Example.rt;
     enhanceSystemPrompt := enhanceSystemPrompt Example.rt |}.

(** The same endpoint when it answers with prose instead of JSON. *)
Definition rtProse : Runtime :=
  {| JSON_parse := parse;
     URL_hostname := hostname;
     axios_post := fun _ _ => openaiReply "Sure! Here is your presentation.";
     Date_toISOString := Date_toISOString Example.rt;
     uuidv4 := uuidv4 Example.rt;
     faultMessage := faultMessage Example.rt;
     structureSystemPrompt := structureSystemPrompt Example.rt;
     enhanceSystemPrompt := enhanceSystemPrompt Example.rt |}.

(** A value that cannot be converted to a string, a 400 reply that has
    it as its [error.message], and the same endpoint when it answers
    every request with that reply. *)
Definition noText : value := VObj [("toString", VNum 1)].

Definition badMessage : JsError :=
  {| message := "Request failed with status code 400";
     code := Some "ERR_BAD_REQUEST";
     response := Some (400, VObj [("error", VObj [("message", noText)])]) |}.

Definition rtBadMessage : Runtime :=
  {| JSON_parse := parse;
     URL_hostname := hostname;
     axios_post := fun _ _ => Rejected badMessage;
     Date_toISOString := Date_toISOString Example.rt;
     uuidv4 := uuidv4 Example.rt;
     faultMessage := faultMessage Example.rt;
     structureSystemPrompt := structureSystemPrompt Example.rt;
     enhanceSystemPrompt := enhanceSystemPrompt Example.rt |}.

(** An enhancement whose second entry has such a value as its
    [slideIndex]. *)
Definition unusableIndex : value :=
  VObj [("enhancedSlides",
         VArr [VObj [("slideIndex", VNum 0); ("enhancedNotes", VStr "More notes");
                     ("transition", VStr "Next")];
               VObj [("slideIndex", noText); ("enhancedNotes", VStr "Lost")]]);
        ("keyTakeaways", VArr [VStr "K"])].

Definition topic : string := "Renewable Energy".

Definition documentProps : list (string * value) :=
  [("title", VStr "T"); ("subtitle", VStr "S");
   ("slides", VArr [Example.slide0; Example.slide1]); ("theme", VObj [])].

(** A configuration whose URL the parser of [Example.rt] refuses. *)
Definition badUrl : Config :=
  {| MEGALLM_API_KEY := "test-key";
     MEGALLM_MODEL := "some-model";
     MEGALLM_API_URL := "llm.example.com" |}.

Definition hello : list ChatMessage := [ {| role := "user"; content := "Hello" |} ].

End Scenario.

(** * Properties *)

(** ** Strings *)

Module JsStringFacts.
Import JsString.

Lemma app_nil_l (s : string) : "" +:+ s = s.
Proof. reflexivity. Qed.

Lemma app_cons (c : ascii) (r s : string) : String c r +:+ s = String c (r +:+ s).
Proof. reflexivity. Qed.

Ltac unapp := rewrite ?app_cons, ?app_nil_l in *.

Lemma app_empty_r (s : string) : s +:+ "" = s.
Proof. induction s as [|c r IH]; unapp; [reflexivity | now f_equal]. Qed.

Lemma app_assoc (a b c : string) : (a +:+ b) +:+ c = a +:+ (b +:+ c).
Proof. induction a as [|x r IH]; unapp; [reflexivity | now f_equal]. Qed.


Lemma length_app (a b : string) :
  String.length (a +:+ b) = (String.length a + String.length b)%nat.
Proof. induction a as [|x r IH]; unapp; simpl; [reflexivity | now f_equal]. Qed.




Lemma trimStart_head (s : string) c :
  headUnit s = Some c -> isWhiteSpace c = false -> trimStart s = s.
Proof. destruct s; simpl; [discriminate|]. intros [= ->] ->. reflexivity. Qed.


Lemma trimEnd_last (s : string) c :
  lastUnit s = Some c -> isWhiteSpace c = false -> trimEnd s = s.
Proof.
  induction s as [|x r IH]; [discriminate|].
  destruct r as [|y r'].
  - simpl. intros [= ->] ->. reflexivity.
  - intros Hl Hc. change (lastUnit (String y r') = Some c) in Hl.
    change (trimEnd (String x (String y r')))
      with (match trimEnd (String y r') with
            | EmptyString => if isWhiteSpace x then EmptyString else String x EmptyString
            | r0 => String x r0
            end).
    rewrite (IH Hl Hc). reflexivity.
Qed.


Lemma tight_nonempty (s : string) : tight s -> s <> "".
Proof. intros [(c & H & _) _] ->. discriminate. Qed.







Lemma sliceTo_sliceFrom (n : nat) (s : string) :
  sliceTo n s +:+ sliceFrom n s = s.
Proof.
  revert s. induction n as [|n IH]; intros [|c r]; simpl; unapp; try reflexivity.
  now rewrite IH.
Qed.





End JsStringFacts.

(** ** Fence stripping *)

Module FenceFacts.
Import JsString JsStringFacts.

Lemma trimStart_cases (s : string) :
  trimStart s = "" \/ exists c, headUnit (trimStart s) = Some c /\ isWhiteSpace c = false.
Proof.
  induction s as [|c r IH]; simpl; [now left|].
  destruct (isWhiteSpace c) eqn:E; [assumption|].
  right. exists c. simpl. auto.
Qed.

Lemma trimEnd_cases (s : string) :
  trimEnd s = "" \/ exists c, lastUnit (trimEnd s) = Some c /\ isWhiteSpace c = false.
Proof.
  induction s as [|c r IH]; simpl; [now left|].
  destruct (trimEnd r) as [|y r'] eqn:E.
  - destruct (isWhiteSpace c) eqn:Ec; [now left|].
    right. exists c. simpl. auto.
  - right. destruct IH as [IH | (d & Hd & Hw)]; [discriminate|].
    exists d. split; [|assumption]. exact Hd.
Qed.

Lemma headUnit_trimEnd (s : string) c :
  headUnit s = Some c -> isWhiteSpace c = false -> headUnit (trimEnd s) = Some c.
Proof.
  destruct s as [|x r]; simpl; [discriminate|]. intros [= ->] Hc.
  destruct (trimEnd r); [rewrite Hc|]; reflexivity.
Qed.

Lemma trim_idempotent (s : string) : trim (trim s) = trim s.
Proof.
  unfold trim.
  assert (H : trimStart (trimEnd (trimStart s)) = trimEnd (trimStart s)).
  { destruct (trimStart_cases s) as [-> | (c & Hc & Hw)]; [reflexivity|].
    eapply trimStart_head; [|exact Hw]. now apply headUnit_trimEnd. }
  rewrite H.
  destruct (trimEnd_cases (trimStart s)) as [-> | (c & Hc & Hw)]; [reflexivity|].
  eapply trimEnd_last; eauto.
Qed.











End FenceFacts.

(** ** Decimal numerals and serializations *)

Module JsonFacts.
Import JsString JsStringFacts.

Lemma pretty_N_char_digit (x : N) : isDigit (pretty_N_char x) = true.
Proof. unfold pretty_N_char. repeat case_match; reflexivity. Qed.

Lemma pretty_N_go_digits (x : N) (s : string) :
  allUnits isDigit s = true -> allUnits isDigit (pretty_N_go x s) = true.
Proof.
  revert s. induction (N.lt_wf_0 x) as [x _ IH]; intros s Hs.
  destruct (decide (x = 0)%N) as [-> | Hx]; [now rewrite pretty_N_go_0|].
  rewrite pretty_N_go_step by lia. apply IH.
  - apply N.div_lt; lia.
  - simpl. now rewrite pretty_N_char_digit.
Qed.

Lemma pretty_N_go_length (x : N) (s : string) :
  (String.length s <= String.length (pretty_N_go x s))%nat.
Proof.
  revert s. induction (N.lt_wf_0 x) as [x _ IH]; intros s.
  destruct (decide (x = 0)%N) as [-> | Hx]; [now rewrite pretty_N_go_0|].
  rewrite pretty_N_go_step by lia.
  etransitivity; [|apply IH, N.div_lt; lia]. simpl. lia.
Qed.

Lemma pretty_N_digits (x : N) :
  pretty x <> "" /\ allUnits isDigit (pretty x) = true.
Proof.
  unfold pretty, pretty_N. case_decide as Hx; [split; [discriminate | reflexivity]|].
  split; [|now apply pretty_N_go_digits].
  rewrite pretty_N_go_step by lia.
  pose proof (pretty_N_go_length (x `div` 10)%N
                (String (pretty_N_char (x `mod` 10)%N) "")) as Hlen.
  intros E. rewrite E in Hlen. simpl in Hlen. lia.
Qed.

Lemma allUnits_head P (s : string) :
  s <> "" -> allUnits P s = true -> exists c, headUnit s = Some c /\ P c = true.
Proof.
  destruct s as [|c r]; [contradiction|]. simpl.
  intros _ [Hc _]%andb_prop. eauto.
Qed.




(** The first code unit of an index in decimal form is a digit. *)
Lemma pretty_nat_head (i : nat) :
  exists c, headUnit (pretty i) = Some c /\ isDigit c = true.
Proof.
  destruct (pretty_N_digits (N.of_nat i)) as [Hne Hd].
  now apply allUnits_head.
Qed.




End JsonFacts.

(** ** The adapter *)

Ltac run :=
  unfold callMegaLLM, recordHealth, axiosPost, get, raise, now, tryCatch,
         bind, throw, ret in *.

Section AdapterFacts.

Variable cfg : Config.
Variable rt : Runtime.

(** With a key and a well-formed endpoint, a call issues exactly one
    upstream request, the one [buildRequest] describes. *)
Lemma callMegaLLM_sent (h : string) messages maxTokens (w : World) :
  MEGALLM_API_KEY cfg <> "" ->
  URL_hostname rt (MEGALLM_API_URL cfg) = Some h ->
  sent (snd (callMegaLLM cfg rt messages maxTokens w))
  = (sent w ++ [buildRequest cfg (isAnthropicHost h) messages maxTokens])%list.
Proof.
  intros Hkey Hurl. run.
  destruct (String.eqb_spec (MEGALLM_API_KEY cfg) ""); [contradiction|].
  rewrite Hurl.
  destruct (axios_post rt _ _) as [data | e]; [|now destruct (rethrowFails e)].
  destruct (isAnthropicHost h); simpl; repeat case_match; simplify_eq/=; reflexivity.
Qed.

(** C3: the wire format of the request is decided by the hostname of
    the configured endpoint alone.  For the host api.anthropic.com the
    body has the system field and the headers are x-api-key,
    Content-Type and anthropic-version; for any other host the body
    carries the messages as given with temperature 0.7 and the headers
    are a bearer Authorization and Content-Type.  This holds for every
    message sequence, so the messages have no part in the choice. *)
Theorem format_selected_by_hostname (h : string) messages maxTokens (w : World) :
  MEGALLM_API_KEY cfg <> "" ->
  URL_hostname rt (MEGALLM_API_URL cfg) = Some h ->
  exists r,
    sent (snd (callMegaLLM cfg rt messages maxTokens w)) = (sent w ++ [r])%list
    /\ (h = "api.anthropic.com" ->
          (exists system conversation,
              body r = AnthropicBody (MEGALLM_MODEL cfg) maxTokens system conversation)
          /\ headers r = [("x-api-key", MEGALLM_API_KEY cfg);
                          ("Content-Type", "application/json");
                          ("anthropic-version", "2023-06-01")])
    /\ (h <> "api.anthropic.com" ->
          body r = OpenAIBody (MEGALLM_MODEL cfg) messages maxTokens (7 # 10)
          /\ headers r = [("Authorization", "Bearer " +:+ MEGALLM_API_KEY cfg);
                          ("Content-Type", "application/json")]).
Proof.
  intros Hkey Hurl. eexists. split; [now apply (callMegaLLM_sent h)|].
  unfold buildRequest, isAnthropicHost.
  destruct (String.eqb_spec h "api.anthropic.com") as [-> | Hne]; simpl.
  - split; [eauto | congruence].
  - split; [contradiction | auto].
Qed.

Lemma filter_not_system (messages : list ChatMessage) :
  List.filter (fun m => negb (isSystem m)) messages
  = filter (fun m => role m <> "system") messages.
Proof.
  induction messages as [|m r IH]; [reflexivity|].
  rewrite filter_cons. simpl. unfold isSystem at 1.
  destruct (String.eqb_spec (role m) "system") as [E | E]; simpl;
    case_decide; try contradiction; now rewrite IH.
Qed.

Lemma find_system_first (before after : list ChatMessage) m :
  Forall (fun x => role x <> "system") before -> role m = "system" ->
  List.find isSystem (before ++ m :: after) = Some m.
Proof.
  intros Hb Hm. induction Hb as [|x r Hx _ IH]; simpl.
  - unfold isSystem. rewrite Hm. reflexivity.
  - unfold isSystem at 1. destruct (String.eqb_spec (role x) "system"); [contradiction|].
    exact IH.
Qed.

Lemma find_system_none (messages : list ChatMessage) :
  Forall (fun x => role x <> "system") messages -> List.find isSystem messages = None.
Proof.
  induction 1 as [|x r Hx _ IH]; simpl; [reflexivity|].
  unfold isSystem at 1. destruct (String.eqb_spec (role x) "system"); [contradiction|].
  exact IH.
Qed.

Lemma map_message_id (l : list ChatMessage) :
  List.map (fun m => {| role := role m; content := content m |}) l = l.
Proof. induction l as [|[] r IH]; simpl; [reflexivity | now rewrite IH]. Qed.

(** C6: in format A the request carries, as its system field, the
    content of the first message whose role is system, or the empty
    string when there is none, and as its conversation exactly the
    messages whose role is not system, in their order. *)
Theorem anthropic_system_and_conversation messages maxTokens (w : World) :
  MEGALLM_API_KEY cfg <> "" ->
  URL_hostname rt (MEGALLM_API_URL cfg) = Some "api.anthropic.com" ->
  exists r system conversation,
    sent (snd (callMegaLLM cfg rt messages maxTokens w)) = (sent w ++ [r])%list
    /\ body r = AnthropicBody (MEGALLM_MODEL cfg) maxTokens system conversation
    /\ conversation = filter (fun m => role m <> "system") messages
    /\ (forall before m after,
           messages = (before ++ m :: after)%list ->
           Forall (fun x => role x <> "system") before ->
           role m = "system" ->
           system = content m)
    /\ (Forall (fun x => role x <> "system") messages -> system = "").
Proof.
  intros Hkey Hurl. do 3 eexists.
  split; [now apply (callMegaLLM_sent "api.anthropic.com")|].
  change (isAnthropicHost "api.anthropic.com") with true. unfold buildRequest. simpl.
  split; [reflexivity|]. split; [|split].
  - rewrite map_message_id. apply filter_not_system.
  - intros before m after -> Hb Hm. now rewrite find_system_first.
  - intros Hall. now rewrite find_system_none.
Qed.

(** C9: the health flag and its time stamp are written by a call and
    never read.  Two calls with the same arguments, started in states
    that differ at most in [healthy] and [lastCheck], return or throw
    the same result and issue the same request, and leave states that
    again differ at most in these two fields. *)
Theorem health_flag_never_read messages maxTokens (w1 w2 : World) :
  sameButHealth w1 w2 ->
  fst (callMegaLLM cfg rt messages maxTokens w1)
  = fst (callMegaLLM cfg rt messages maxTokens w2)
  /\ sameButHealth (snd (callMegaLLM cfg rt messages maxTokens w1))
                   (snd (callMegaLLM cfg rt messages maxTokens w2)).
Proof.
  destruct w1 as [[c1 l1 h1] s1 k1 u1], w2 as [[c2 l2 h2] s2 k2 u2].
  unfold sameButHealth. simpl. intros (-> & -> & -> & ->). run. simpl.
  destruct (String.eqb (MEGALLM_API_KEY cfg) ""); [auto|].
  destruct (URL_hostname rt (MEGALLM_API_URL cfg)) as [h|]; simpl; [|auto].
  destruct (axios_post rt _ _) as [data | e]; simpl;
    [|destruct (rethrowFails e); auto].
  destruct (isAnthropicHost h); simpl; repeat case_match; simplify_eq/=; auto.
Qed.

End AdapterFacts.

(** ** The error messages *)

Module ErrorFacts.
Import JsStringFacts.

(** The message of an error is the fixed message of its class, except
    that a generic error may carry the upstream's own message. *)
Lemma friendlyMessage_by_class (e : JsError) :
  friendlyMessage e = fixedMessage (errorClass e)
  \/ (errorClass e = GenericUpstream
      /\ exists x, friendlyMessage e = "AI Service Error: " +:+ x).
Proof.
  unfold friendlyMessage, errorClass, classByCode.
  repeat (case_match; [now left|]).
  destruct (Js.truthy _).
  - right. split; [reflexivity | eexists; reflexivity].
  - now left.
Qed.









End ErrorFacts.




(** ** The generate route: validation and the missing key *)

Module RouteFacts.
Import JsString JsStringFacts.

Lemma trimStart_all_blank (w : string) : blank w -> trimStart w = "".
Proof.
  unfold blank. induction w as [|c r IH]; simpl; [reflexivity|].
  intros [Hc Hr]%andb_prop. rewrite Hc. auto.
Qed.

Lemma blank_trim (t : string) : blank t -> trim t = "".
Proof. intros H. unfold trim. now rewrite trimStart_all_blank. Qed.

Lemma trimEnd_empty_blank (s : string) : trimEnd s = "" -> blank s.
Proof.
  unfold blank. induction s as [|c r IH]; simpl; [reflexivity|].
  destruct (trimEnd r) eqn:E; [|discriminate].
  destruct (isWhiteSpace c); [auto | discriminate].
Qed.

Lemma trimStart_blank_empty (s : string) : blank (trimStart s) -> trimStart s = "".
Proof.
  induction s as [|c r IH]; simpl; [reflexivity|].
  destruct (isWhiteSpace c) eqn:E; [assumption|].
  unfold blank. simpl. rewrite E. discriminate.
Qed.

Lemma trimStart_empty_blank (s : string) : trimStart s = "" -> blank s.
Proof.
  unfold blank. induction s as [|c r IH]; simpl; [reflexivity|].
  destruct (isWhiteSpace c); [auto | discriminate].
Qed.

Lemma trim_empty_blank (t : string) : trim t = "" -> blank t.
Proof.
  unfold trim. intros H%trimEnd_empty_blank%trimStart_blank_empty.
  now apply trimStart_empty_blank.
Qed.

(** An unset or empty [MEGALLM_API_KEY] leaves the key empty. *)
Lemma loadConfig_no_key (getenv : string -> option string) :
  getenv "MEGALLM_API_KEY" = None \/ getenv "MEGALLM_API_KEY" = Some "" ->
  MEGALLM_API_KEY (loadConfig getenv) = "".
Proof. unfold loadConfig, envOr. simpl. now intros [-> | ->]. Qed.

Lemma callMegaLLM_no_key cfg rt messages maxTokens :
  MEGALLM_API_KEY cfg = "" ->
  callMegaLLM cfg rt messages maxTokens = throw (newError missingKeyMessage).
Proof. unfold callMegaLLM. intros ->. reflexivity. Qed.

(** Without a key a generate request never succeeds and never changes
    the state. *)
Lemma generate_no_key cfg rt (reqBody : value) (w : World) :
  MEGALLM_API_KEY cfg = "" ->
  status (fst (generate cfg rt reqBody w)) <> 200
  /\ snd (generate cfg rt reqBody w) = w.
Proof.
  intros Hkey. unfold generate, generatePresentationStructure.
  unfold get, trimReceiver, raise, bind, throw, ret.
  destruct (Js.Get reqBody "topic") as [topic|]; simpl; [|split; [lia | reflexivity]].
  destruct (Js.truthy topic); simpl; [|split; [lia | reflexivity]].
  destruct topic; simpl; try (split; [lia | reflexivity]).
  destruct (String.length (trim s) =? 0)%nat; simpl; [split; [lia | reflexivity]|].
  rewrite callMegaLLM_no_key by assumption. simpl. split; [lia | reflexivity].
Qed.

End RouteFacts.

(** C7: a generate request whose topic is absent, empty or made of
    white space only is answered with status 400 and the error
    [Please provide a topic], and the state of the process is untouched:
    no upstream request is issued and the adapter has left no trace. *)
Theorem blank_topic_is_rejected cfg rt (props : list (string * value)) (w : World) :
  Js.own props "topic" = None
  \/ (exists t, Js.own props "topic" = Some (VStr t) /\ JsString.blank t) ->
  generate cfg rt (VObj props) w
  = ({| status := 400; json := errorBody "Please provide a topic" |}, w).
Proof.
  unfold generate, get, bind, ret. simpl.
  intros [-> | (t & -> & Ht)]; simpl; [reflexivity|].
  destruct (String.eqb t ""); simpl; [reflexivity|].
  rewrite (RouteFacts.blank_trim t Ht). reflexivity.
Qed.

Lemma blank_topic_witness :
  generate Example.cfg Example.rt (VObj [("topic", VStr "   ")]) (startup Example.cfg)
  = ({| status := 400; json := errorBody "Please provide a topic" |},
     startup Example.cfg).
Proof.
  apply blank_topic_is_rejected. right. exists "   ". split; reflexivity.
Defined.

(** C8: with no key configured, every call of the adapter throws the
    missing-key error before anything is sent; a generate request that
    carries a topic is answered with status 500 and that error; no
    generate request succeeds or issues an upstream request; and the
    health route still answers, with status [unconfigured] and
    [apiConfigured] false, before and after any generate request. *)
Theorem missing_key_fails_generate cfg rt :
  MEGALLM_API_KEY cfg = "" ->
  (forall messages maxTokens w,
      callMegaLLM cfg rt messages maxTokens w = (Throw (newError missingKeyMessage), w))
  /\ (forall props t w,
        Js.own props "topic" = Some (VStr t) -> ~ JsString.blank t ->
        generate cfg rt (VObj props) w
        = ({| status := 500; json := errorBody missingKeyMessage |}, w))
  /\ (forall reqBody w,
        status (fst (generate cfg rt reqBody w)) <> 200
        /\ snd (generate cfg rt reqBody w) = w)
  /\ (forall reqBody w,
        w = startup cfg \/ w = snd (generate cfg rt reqBody (startup cfg)) ->
        status (health cfg w) = 200
        /\ Js.Get (json (health cfg w)) "status" = Some (VStr "unconfigured")
        /\ Js.Get (json (health cfg w)) "apiConfigured" = Some (VBool false)).
Proof.
  intros Hkey. split; [|split; [|split]].
  - intros. now rewrite RouteFacts.callMegaLLM_no_key.
  - intros props t w Ht Hnb.
    unfold generate, generatePresentationStructure.
    unfold get, trimReceiver, bind, throw, ret. simpl. rewrite Ht. simpl.
    assert (Hne : JsString.trim t <> "").
    { intros E. now apply Hnb, RouteFacts.trim_empty_blank. }
    destruct (String.eqb_spec t "") as [-> | _]; [now destruct Hne|].
    simpl. destruct (JsString.trim t); [now destruct Hne|]. simpl.
    rewrite RouteFacts.callMegaLLM_no_key by assumption. reflexivity.
  - intros. now apply RouteFacts.generate_no_key.
  - intros reqBody w Hw.
    assert (w = startup cfg) as ->.
    { destruct Hw as [-> | ->]; [reflexivity|].
      now apply RouteFacts.generate_no_key. }
    unfold health, startup. simpl. rewrite Hkey. simpl. auto.
Qed.

Lemma missing_key_witness :
  generate Example.noKey Example.rt Example.request (startup Example.noKey)
  = ({| status := 500; json := errorBody missingKeyMessage |}, startup Example.noKey).
Proof.
  destruct (missing_key_fails_generate Example.noKey Example.rt eq_refl) as (_ & H & _).
  apply (H _ "Renewable Energy"); [reflexivity|].
  unfold JsString.blank. simpl. discriminate.
Defined.

Lemma format_witness :
  exists r,
    sent (snd (callMegaLLM Example.cfg Example.rt
                 [ {| role := "user"; content := "Hello" |} ] 8000
                 (startup Example.cfg))) = [r]
    /\ headers r = [("x-api-key", "test-key");
                    ("Content-Type", "application/json");
                    ("anthropic-version", "2023-06-01")].
Proof.
  destruct (format_selected_by_hostname Example.cfg Example.rt "api.anthropic.com"
              [ {| role := "user"; content := "Hello" |} ] 8000 (startup Example.cfg))
    as (r & Hsent & HA & _); [discriminate | reflexivity |].
  exists r. split; [exact Hsent | now apply HA].
Defined.

Lemma anthropic_witness :
  exists r,
    sent (snd (callMegaLLM Example.cfg Example.rt
                 [ {| role := "user"; content := "Hello" |};
                   {| role := "system"; content := "Be brief" |};
                   {| role := "user"; content := "Again" |} ] 8000
                 (startup Example.cfg))) = [r]
    /\ body r = AnthropicBody "claude-opus-4-5-20251101" 8000 "Be brief"
                  [ {| role := "user"; content := "Hello" |};
                    {| role := "user"; content := "Again" |} ].
Proof.
  destruct (anthropic_system_and_conversation Example.cfg Example.rt
              [ {| role := "user"; content := "Hello" |};
                {| role := "system"; content := "Be brief" |};
                {| role := "user"; content := "Again" |} ] 8000 (startup Example.cfg))
    as (r & system & conversation & Hsent & Hbody & Hconv & Hsys & _);
    [discriminate | reflexivity |].
  exists r. split; [exact Hsent|]. rewrite Hbody, Hconv.
  rewrite (Hsys [ {| role := "user"; content := "Hello" |} ]
                {| role := "system"; content := "Be brief" |}
                [ {| role := "user"; content := "Again" |} ]);
    [reflexivity | reflexivity | | reflexivity].
  constructor; [discriminate | constructor].
Defined.

Lemma health_flag_witness :
  let w1 := startup Example.cfg in
  let w2 := {| apiStatus := {| configured := true;
                               lastCheck := Some "2024-12-31T23:59:59.000Z";
                               healthy := true |};
               sent := []; clock := 0; uuids := 0 |} in
  fst (callMegaLLM Example.cfg Example.rt
         [ {| role := "user"; content := "Hello" |} ] 8000 w1)
  = fst (callMegaLLM Example.cfg Example.rt
           [ {| role := "user"; content := "Hello" |} ] 8000 w2).
Proof.
  intros w1 w2.
  apply (health_flag_never_read Example.cfg Example.rt).
  repeat split.
Defined.

(** ** Fence stripping, as the stages use it *)



(** ** Property reads and writes *)

Module JsFacts.
Import Js.

Lemma own_assign_eq props k x : own (assign props k x) k = Some x.
Proof.
  induction props as [|[k' v] r IH]; simpl.
  - now rewrite String.eqb_refl.
  - destruct (String.eqb_spec k' k) as [-> | Hne]; simpl.
    + now rewrite String.eqb_refl.
    + destruct (String.eqb_spec k' k); [contradiction | exact IH].
Qed.

Lemma own_assign_ne props k k' x : k' <> k -> own (assign props k x) k' = own props k'.
Proof.
  intros Hne. induction props as [|[k0 v] r IH]; simpl.
  - destruct (String.eqb_spec k k'); [congruence | reflexivity].
  - destruct (String.eqb_spec k0 k) as [-> | Hk]; simpl.
    + destruct (String.eqb_spec k k'); [congruence | reflexivity].
    + destruct (String.eqb_spec k0 k'); [reflexivity | exact IH].
Qed.

Lemma assign_same props k x : own props k = Some x -> assign props k x = props.
Proof.
  induction props as [|[k' v] r IH]; simpl; [discriminate|].
  destruct (String.eqb_spec k' k) as [-> | Hne].
  - now intros [= ->].
  - intros H. now rewrite IH.
Qed.

Lemma assign_assign props k x y : assign (assign props k x) k y = assign props k y.
Proof.
  induction props as [|[k' v] r IH]; simpl.
  - now rewrite String.eqb_refl.
  - destruct (String.eqb_spec k' k) as [-> | Hne]; simpl.
    + now rewrite String.eqb_refl.
    + destruct (String.eqb_spec k' k); [contradiction | now rewrite IH].
Qed.

Lemma indexOfKey_Some k len i :
  indexOfKey k len = Some i -> pretty i = k /\ (i < len)%nat.
Proof.
  unfold indexOfKey. intros H. apply List.find_some in H as [Hin Heq].
  apply String.eqb_eq in Heq. apply List.in_seq in Hin. split; [assumption | lia].
Qed.

Lemma indexOfKey_pretty i len : (i < len)%nat -> indexOfKey (pretty i) len = Some i.
Proof.
  intros Hi. destruct (indexOfKey (pretty i) len) as [j|] eqn:E.
  - apply indexOfKey_Some in E as [E _]. f_equal. now apply (inj pretty).
  - unfold indexOfKey in E.
    pose proof (List.find_none _ _ E i) as H. simpl in H.
    rewrite String.eqb_refl in H. discriminate H. apply List.in_seq. lia.
Qed.

(** A key that does not begin with a digit names no index. *)
Lemma indexOfKey_name k len c :
  JsString.headUnit k = Some c -> JsString.isDigit c = false -> indexOfKey k len = None.
Proof.
  intros Hk Hc. destruct (indexOfKey k len) as [i|] eqn:E; [|reflexivity].
  apply indexOfKey_Some in E as [<- _].
  destruct (JsonFacts.pretty_nat_head i) as (d & Hd & Hdig). congruence.
Qed.

Lemma pretty_nat_Z (i : nat) : pretty i = pretty (Z.of_nat i).
Proof. destruct i; reflexivity. Qed.

(** A number below zero or not below the length names no index. *)
Lemma indexOfKey_out_of_range (n : Z) len i :
  n < 0 \/ Z.of_nat len <= n -> indexOfKey (pretty n) len <> Some i.
Proof.
  intros Hn E. apply indexOfKey_Some in E as [E Hi].
  rewrite pretty_nat_Z in E. apply (inj pretty) in E. lia.
Qed.

(** A value with one readable property has all of them readable. *)
Lemma Get_total v k x k' : Get v k = Some x -> exists y, Get v k' = Some y.
Proof.
  destruct v; simpl; try discriminate; intros _; eauto;
    repeat case_match; eauto.
Qed.

Lemma Get_Put_ne v k x k' : k' <> k -> Get (Put v k x) k' = Get v k'.
Proof.
  intros Hne. destruct v; simpl; try reflexivity.
  now rewrite own_assign_ne.
Qed.

Lemma Put_falsy v k x : truthy v = false -> Put v k x = v.
Proof. destruct v; simpl; try reflexivity; discriminate. Qed.

Lemma allUnits_app P (a b : string) :
  JsString.allUnits P (a +:+ b) = JsString.allUnits P a && JsString.allUnits P b.
Proof.
  induction a as [|c r IH]; [reflexivity|].
  rewrite JsStringFacts.app_cons. simpl. rewrite IH. now rewrite andb_assoc.
Qed.

(** The text of a value whose conversion throws is no numeral. *)
Lemma unconvertible_text :
  forall v, converts v = false ->
            JsString.allUnits JsString.isDigit (ToString v) = false.
Proof.
  fix IH 1. intros [| | | | |items|props]; try discriminate.
  - destruct items as [|x [|y r]]; [discriminate| |].
    + intros H. cbn in H. rewrite andb_true_r in H.
      assert (Hx : converts x = false) by (destruct x; try discriminate; exact H).
      specialize (IH x Hx). destruct x; try discriminate; exact IH.
    + intros _. cbn [ToString]. rewrite allUnits_app.
      apply andb_false_iff. right. reflexivity.
  - intros _. reflexivity.
Qed.

(** A value whose text is an index can be converted. *)
Lemma numeral_converts v (i : nat) : ToString v = pretty i -> converts v = true.
Proof.
  intros H. destruct (converts v) eqn:E; [reflexivity|].
  apply unconvertible_text in E. rewrite H in E.
  destruct (JsonFacts.pretty_N_digits (N.of_nat i)) as [_ Hd].
  change (pretty i) with (pretty (N.of_nat i)) in E. congruence.
Qed.

End JsFacts.

(** ** The merge *)

Module MergeFacts.
Import Js JsFacts.

Lemma slideFrame_refl s : slideFrame s s.
Proof. now intros k _ _. Qed.

Lemma slideFrame_trans s1 s2 s3 :
  slideFrame s1 s2 -> slideFrame s2 s3 -> slideFrame s1 s3.
Proof. intros H12 H23 k Hn Ht. now rewrite H23, H12. Qed.

Lemma slideFrame_merged s notes trans :
  slideFrame s (Put (Put s "enhancedNotes" notes) "transition" trans).
Proof. intros k Hn Ht. now rewrite !Get_Put_ne. Qed.

Lemma slidesFrame_refl P items : slidesFrame P items items.
Proof.
  split; [reflexivity|]. intros i s Hs. exists s. auto using slideFrame_refl.
Qed.

Lemma slidesFrame_trans (P Q R : nat -> Prop) items1 items2 items3 :
  (forall i, P i -> R i) -> (forall i, Q i -> R i) ->
  slidesFrame P items1 items2 -> slidesFrame Q items2 items3 ->
  slidesFrame R items1 items3.
Proof.
  intros HP HQ [L12 F12] [L23 F23]. split; [congruence|].
  intros i s1 H1.
  destruct (F12 i s1 H1) as (s2 & H2 & Hf12 & Hn12 & Ht12).
  destruct (F23 i s2 H2) as (s3 & H3 & Hf23 & Hn23 & Ht23).
  exists s3. split; [assumption|]. split; [eauto using slideFrame_trans|]. split.
  - intros HR. rewrite Hn23 by auto. auto.
  - intros Hs1. specialize (Ht12 Hs1). subst s2. auto.
Qed.

(** Writing into the slide that [k] names, through the document. *)
Lemma update_slide props items k f :
  own props "slides" = Some (VArr items) ->
  updateAt (VObj props) "slides" (fun slides => updateAt slides k f)
  = VObj (assign props "slides"
            (VArr (match indexOfKey k (length items) with
                   | Some i => alter f i items
                   | None => items
                   end))).
Proof.
  intros H. unfold updateAt at 1. rewrite H. simpl.
  now destruct (indexOfKey k (length items)).
Qed.

(** One entry whose [slideIndex] can be read: the document afterwards. *)
Lemma applyEntry_step props items e idx :
  own props "slides" = Some (VArr items) ->
  Get e "slideIndex" = Some idx ->
  converts idx = true ->
  exists items',
    applyEntry (VObj props) e = Some (VObj (assign props "slides" (VArr items')))
    /\ slidesFrame (fun i => ToString idx = pretty i) items items'.
Proof.
  intros Hslides Hidx Hconv.
  destruct (Get_total _ _ _ "enhancedNotes" Hidx) as (notes & Hnotes).
  destruct (Get_total _ _ _ "transition" Hidx) as (trans & Htrans).
  assert (Hsame : VObj props = VObj (assign props "slides" (VArr items))).
  { now rewrite assign_same. }
  unfold applyEntry.
  change (Get (VObj props) "slides") with (Some (default VUndef (own props "slides"))).
  rewrite Hslides, Hidx, Hnotes, Htrans.
  cbn [mbind option_bind default from_option id].
  unfold ToPropertyKey. rewrite Hconv. cbn [mbind option_bind].
  set (k := ToString idx).
  assert (Hg : exists slide,
             Get (VArr items) k = Some slide
             /\ forall i, indexOfKey k (length items) = Some i ->
                          slide = default VUndef (items !! i)).
  { simpl. destruct (indexOfKey k (length items)) as [i|].
    - eexists. split; [reflexivity|]. now intros ? [= <-].
    - case_match; eexists; (split; [reflexivity | discriminate]). }
  destruct Hg as (slide & -> & Hslide). cbn [mbind option_bind].
  destruct (truthy slide) eqn:Hts;
    [|exists items; split; [now rewrite <- Hsame | apply slidesFrame_refl]].
  rewrite (update_slide props items) by assumption.
  rewrite (update_slide (assign props "slides" _) _ k _ (own_assign_eq _ _ _)).
  rewrite assign_assign.
  destruct (indexOfKey k (length items)) as [i|] eqn:Ei.
  - rewrite length_alter, Ei.
    pose proof (Hslide i eq_refl) as Hsl.
    apply indexOfKey_Some in Ei as [Ek Hi].
    destruct (lookup_lt_is_Some_2 items i Hi) as [s Hs].
    rewrite Hs in Hsl. simpl in Hsl. subst slide.
    eexists. split; [reflexivity|]. split; [now rewrite !length_alter|].
    intros j sj Hj. destruct (decide (j = i)) as [-> | Hne].
    + rewrite !list_lookup_alter_eq, Hs. simpl. eexists. split; [reflexivity|].
      assert (sj = s) as -> by congruence.
      split; [apply slideFrame_merged|]. split; [congruence|].
      intros Hf. congruence.
    + rewrite !list_lookup_alter_ne by auto.
      exists sj. auto using slideFrame_refl.
  - rewrite Ei. exists items. split; [reflexivity | apply slidesFrame_refl].
Qed.

Lemma applyEntry_unreadable props items e :
  own props "slides" = Some (VArr items) ->
  Get e "slideIndex" = None -> applyEntry (VObj props) e = None.
Proof. intros Hs He. unfold applyEntry. simpl. now rewrite He. Qed.

Lemma applyEntry_unconvertible props items e idx :
  own props "slides" = Some (VArr items) ->
  Get e "slideIndex" = Some idx -> converts idx = false ->
  applyEntry (VObj props) e = None.
Proof.
  intros Hs He Hc. unfold applyEntry, ToPropertyKey. simpl. rewrite He. simpl.
  now rewrite Hc.
Qed.

(** The whole loop keeps the document an object with as many slides,
    touches no other property of it, and frames the slides. *)
Lemma forEachEntry_frame entries : forall props items c doc',
  own props "slides" = Some (VArr items) ->
  forEachEntry entries (VObj props) = (c, doc') ->
  exists props' items',
    doc' = VObj props'
    /\ own props' "slides" = Some (VArr items')
    /\ (forall k, k <> "slides" -> own props' k = own props k)
    /\ slidesFrame (addressedBy entries) items items'.
Proof.
  induction entries as [|e r IH]; intros props items c doc' Hslides Hrun.
  - simpl in Hrun. injection Hrun as <- <-.
    exists props, items. auto using slidesFrame_refl.
  - simpl in Hrun. destruct (Get e "slideIndex") as [idx|] eqn:Hidx;
      [destruct (converts idx) eqn:Hconv|].
    + destruct (applyEntry_step props items e idx Hslides Hidx Hconv)
        as (items1 & Hstep & Hframe1).
      rewrite Hstep in Hrun.
      destruct (IH _ items1 _ _ (own_assign_eq _ _ _) Hrun)
        as (props' & items' & -> & Hs' & Hother & Hframe2).
      exists props', items'. split; [reflexivity|]. split; [assumption|]. split.
      * intros k Hk. rewrite Hother by assumption. now apply own_assign_ne.
      * eapply slidesFrame_trans; [| |exact Hframe1|exact Hframe2].
        -- intros i Hi. exists e, idx. split; [left|]; auto.
        -- intros i (e' & idx' & Hin & Hrest). exists e', idx'.
           split; [now right | assumption].
    + rewrite (applyEntry_unconvertible props items e idx Hslides Hidx Hconv) in Hrun.
      injection Hrun as <- <-.
      exists props, items. auto using slidesFrame_refl.
    + rewrite (applyEntry_unreadable props items e Hslides Hidx) in Hrun.
      injection Hrun as <- <-.
      exists props, items. auto using slidesFrame_refl.
Qed.

(** Only an object has an [enhancedSlides] array. *)
Lemma enhancedSlides_object enhancements entries :
  Get enhancements "enhancedSlides" = Some (VArr entries) ->
  exists eprops, enhancements = VObj eprops.
Proof.
  destruct enhancements as [| | | |s|items|eprops]; simpl; try discriminate; eauto.
  - rewrite (indexOfKey_name _ _ "e"%char) by reflexivity. discriminate.
  - rewrite (indexOfKey_name _ _ "e"%char) by reflexivity. discriminate.
Qed.

Lemma slidesFrame_mono (P R : nat -> Prop) items items' :
  (forall i, P i -> R i) -> slidesFrame P items items' -> slidesFrame R items items'.
Proof.
  intros HPR H. eapply (slidesFrame_trans P (fun _ => False) R);
    [exact HPR | contradiction | exact H | apply slidesFrame_refl].
Qed.

(** Slides that are each unnamed or falsy all stay as they are. *)
Lemma slidesFrame_same (P : nat -> Prop) items items' :
  slidesFrame P items items' ->
  (forall i s, items !! i = Some s -> ~ P i \/ truthy s = false) ->
  items' = items.
Proof.
  intros [Hlen Hframe] Hall. apply list_eq. intros i.
  destruct (items !! i) as [s|] eqn:Hs.
  - destruct (Hframe i s Hs) as (s' & Hs' & _ & Hn & Ht).
    rewrite Hs'. f_equal. destruct (Hall i s Hs); auto.
  - apply lookup_ge_None. apply lookup_ge_None in Hs. lia.
Qed.

(** The document the merge leaves behind, whether it completes or throws. *)
Lemma applyEnhancements_frame enhancements props items c doc' :
  own props "slides" = Some (VArr items) ->
  applyEnhancements enhancements (VObj props) = (c, doc') ->
  exists props' items',
    doc' = VObj props'
    /\ own props' "slides" = Some (VArr items')
    /\ (forall k, k <> "slides" -> k <> "keyTakeaways" -> own props' k = own props k)
    /\ (own props' "keyTakeaways" = own props "keyTakeaways"
        \/ exists eprops kt,
             enhancements = VObj eprops
             /\ own eprops "keyTakeaways" = Some kt
             /\ own props' "keyTakeaways" = Some kt)
    /\ slidesFrame (addressed enhancements) items items'.
Proof.
  intros Hslides Hrun.
  assert (Hstay : forall c0, (c0, VObj props) = (c, doc') ->
            exists props' items',
              doc' = VObj props'
              /\ own props' "slides" = Some (VArr items')
              /\ (forall k, k <> "slides" -> k <> "keyTakeaways" ->
                            own props' k = own props k)
              /\ (own props' "keyTakeaways" = own props "keyTakeaways"
                  \/ exists eprops kt,
                       enhancements = VObj eprops
                       /\ own eprops "keyTakeaways" = Some kt
                       /\ own props' "keyTakeaways" = Some kt)
              /\ slidesFrame (addressed enhancements) items items').
  { intros c0 [= <- <-]. exists props, items. auto 10 using slidesFrame_refl. }
  unfold applyEnhancements in Hrun.
  destruct (Get enhancements "enhancedSlides") as [es|] eqn:Hes; [|eauto].
  destruct es as [| | | | |entries|]; eauto.
  destruct (enhancedSlides_object _ _ Hes) as [eprops ->].
  destruct (forEachEntry entries (VObj props)) as [c0 doc0] eqn:Hloop.
  destruct (forEachEntry_frame entries props items c0 doc0 Hslides Hloop)
    as (props1 & items1 & -> & Hs1 & Hother & Hframe).
  assert (Hframe' : slidesFrame (addressed (VObj eprops)) items items1).
  { eapply slidesFrame_mono; [|exact Hframe]. intros i Hi. exists entries. auto. }
  destruct c0.
  - simpl in Hrun.
    destruct (truthy (default VUndef (own eprops "keyTakeaways"))) eqn:Hkt.
    + injection Hrun as <- <-. simpl.
      exists (assign props1 "keyTakeaways" (default VUndef (own eprops "keyTakeaways"))), items1.
      split; [reflexivity|]. split; [now rewrite own_assign_ne|]. split.
      * intros k Hk Hk'. rewrite own_assign_ne by auto. auto.
      * split; [|assumption]. right.
        destruct (own eprops "keyTakeaways") as [kt|] eqn:Eo; [|discriminate].
        exists eprops, kt. simpl. auto using own_assign_eq.
    + injection Hrun as <- <-. exists props1, items1.
      split; [reflexivity|]. split; [assumption|]. split; [auto|].
      split; [left; now apply Hother | assumption].
  - injection Hrun as <- <-. exists props1, items1.
    split; [reflexivity|]. split; [assumption|]. split; [auto|].
    split; [left; now apply Hother | assumption].
Qed.

End MergeFacts.



(** C10: the guard of the merge tests the slide, not the index.  An
    entry whose [slideIndex] names a slot that holds a falsy value
    leaves the document as it is and raises nothing; and after the whole
    merge such a slot still holds the same value, so it has received
    neither [enhancedNotes] nor [transition]. *)
Theorem falsy_slide_is_skipped :
  (forall props items e idx i slide,
      Js.own props "slides" = Some (VArr items) ->
      Js.Get e "slideIndex" = Some idx ->
      Js.ToString idx = pretty i ->
      items !! i = Some slide ->
      Js.truthy slide = false ->
      applyEntry (VObj props) e = Some (VObj props))
  /\ (forall enhancements props items c doc' i slide,
        Js.own props "slides" = Some (VArr items) ->
        items !! i = Some slide ->
        Js.truthy slide = false ->
        applyEnhancements enhancements (VObj props) = (c, doc') ->
        exists props' items',
          doc' = VObj props'
          /\ Js.own props' "slides" = Some (VArr items')
          /\ items' !! i = Some slide).
Proof.
  split.
  - intros props items e idx i slide Hslides Hidx Hkey Hi Hfalsy.
    destruct (MergeFacts.applyEntry_step props items e idx Hslides Hidx
                (JsFacts.numeral_converts _ _ Hkey))
      as (items' & -> & Hframe).
    assert (items' = items) as ->.
    { apply (MergeFacts.slidesFrame_same _ _ _ Hframe). intros j s Hs.
      destruct (decide (j = i)) as [-> | Hne].
      - right. congruence.
      - left. rewrite Hkey. intros E. apply (inj pretty) in E. congruence. }
    now rewrite JsFacts.assign_same.
  - intros enhancements props items c doc' i slide Hslides Hi Hfalsy Hrun.
    destruct (MergeFacts.applyEnhancements_frame _ _ _ _ _ Hslides Hrun)
      as (props' & items' & -> & Hs' & _ & _ & _ & Hframe).
    exists props', items'. split; [reflexivity|]. split; [assumption|].
    destruct (Hframe i slide Hi) as (s' & Hs & _ & _ & Hsame).
    now rewrite Hs, Hsame.
Qed.

Lemma falsy_slide_witness :
  applyEntry (VObj [("slides", VArr [Example.slide0; VNull])])
    (VObj [("slideIndex", VNum 1); ("enhancedNotes", VStr "N"); ("transition", VStr "X")])
  = Some (VObj [("slides", VArr [Example.slide0; VNull])]).
Proof.
  destruct falsy_slide_is_skipped as [H _].
  apply (H _ [Example.slide0; VNull] _ (VNum 1) 1%nat VNull); reflexivity.
Defined.

(** ** The enhancement stage inside the generate route *)

Section PipelineFacts.

Variable cfg : Config.
Variable rt : Runtime.

(** The enhancement stage never throws. *)
Lemma enhancePresentation_returns (presentation : value) (w : World) :
  exists presentation' w',
    enhancePresentation cfg rt presentation w = (Ok presentation', w').
Proof.
  unfold enhancePresentation, tryCatch, bind, ret.
  destruct (fetchEnhancements cfg rt presentation w) as [[enhancements | e] w']; eauto.
Qed.

(** When the stage fails before the merge (upstream error, a reply that
    is no text, a parse error), the document comes back as it was. *)
Lemma enhancePresentation_fetch_failure (presentation : value) (w w' : World) e :
  fetchEnhancements cfg rt presentation w = (Throw e, w') ->
  enhancePresentation cfg rt presentation w = (Ok presentation, w').
Proof.
  intros H. unfold enhancePresentation, tryCatch, bind, ret. now rewrite H.
Qed.

Lemma updateAt_nullish v k f : nullish (Js.updateAt v k f) = nullish v.
Proof. destruct v; simpl; repeat case_match; reflexivity. Qed.

Lemma Put_nullish v k x : nullish (Js.Put v k x) = nullish v.
Proof. now destruct v. Qed.

Lemma applyEntry_nullish p e p' : applyEntry p e = Some p' -> nullish p' = nullish p.
Proof.
  unfold applyEntry. intros H.
  repeat (simplify_option_eq || case_match); rewrite ?updateAt_nullish; reflexivity.
Qed.

Lemma forEachEntry_nullish entries : forall p,
  nullish (snd (forEachEntry entries p)) = nullish p.
Proof.
  induction entries as [|e r IH]; intros p; simpl; [reflexivity|].
  destruct (applyEntry p e) as [p1|] eqn:E; [|reflexivity].
  rewrite IH. now apply applyEntry_nullish in E.
Qed.

Lemma applyEnhancements_nullish enhancements p :
  nullish (snd (applyEnhancements enhancements p)) = nullish p.
Proof.
  unfold applyEnhancements.
  destruct (Js.Get enhancements "enhancedSlides") as [[| | | | |entries|]|];
    try reflexivity.
  pose proof (forEachEntry_nullish entries p) as H.
  destruct (forEachEntry entries p) as [[|f] p1]; simpl in *; [|assumption].
  destruct (Js.truthy _); simpl; [now rewrite Put_nullish | assumption].
Qed.

Lemma enhancePresentation_nullish (presentation presentation' : value) (w w' : World) :
  enhancePresentation cfg rt presentation w = (Ok presentation', w') ->
  nullish presentation' = nullish presentation.
Proof.
  unfold enhancePresentation, tryCatch, bind, ret.
  destruct (fetchEnhancements cfg rt presentation w) as [[enh | e] w2];
    intros [= <- _]; [apply applyEnhancements_nullish | reflexivity].
Qed.

(** Once stage 1 has produced a document, the status of the reply is
    decided by that document alone, whatever stage 2 does: 200 unless
    the document is [null]. *)
Lemma generate_status_after_stage1 props topic presentation (w w1 : World) :
  Js.own props "topic" = Some (VStr topic) ->
  JsString.trim topic <> "" ->
  generatePresentationStructure cfg rt (VStr topic) w = (Ok presentation, w1) ->
  status (fst (generate cfg rt (VObj props) w))
  = if nullish presentation then 500 else 200.
Proof.
  intros Htopic Hne Hstage1.
  unfold generate, get, trimReceiver, bind, ret. simpl. rewrite Htopic. simpl.
  destruct (String.eqb_spec topic "") as [-> | _]; [now destruct Hne|]. simpl.
  destruct (JsString.trim topic) eqn:Et; [now destruct Hne|]. simpl.
  rewrite Hstage1.
  destruct (enhancePresentation_returns presentation w1) as (p' & w' & Hen).
  rewrite Hen. rewrite <- (enhancePresentation_nullish _ _ _ _ Hen).
  unfold freshId, put, now, raise, bind, ret, throw.
  destruct p'; reflexivity.
Qed.

End PipelineFacts.

(** C1, at the input where the code departs from it.  Stage 1 returns a
    two-slide document; stage 2 returns an enhancement whose first entry
    names slide 0 and whose second entry is [null].  The merge throws on
    the second entry, the error is swallowed and the request succeeds,
    but the first entry has already been written: slide 0 of the reply
    carries [enhancedNotes] and [transition], so the reply is not the
    stage-1 document with [id], [createdAt] and [topic] added. *)
Theorem enhancement_failure_keeps_partial_merge :
  let w0 := startup Example.cfg in
  let stage1 :=
    generatePresentationStructure Example.cfg Example.rt (VStr "Renewable Energy") w0 in
  let reply := fst (generate Example.cfg Example.rt Example.request w0) in
  fst stage1 = Ok Example.stage1Document
  /\ fst (fetchEnhancements Example.cfg Example.rt Example.stage1Document (snd stage1))
     = Ok Example.brokenEnhancement
  /\ fst (applyEnhancements Example.brokenEnhancement Example.stage1Document)
     = Abrupt ReadOfNullish
  /\ status reply = 200
  /\ Js.Get (json reply) "slides"
     = Some (VArr [Js.Put (Js.Put Example.slide0 "enhancedNotes" (VStr "More notes"))
                     "transition" (VStr "Next");
                   Example.slide1])
  /\ json reply
     <> Js.Put (Js.Put (Js.Put Example.stage1Document "id" (VStr "uuid-0"))
                  "createdAt" (VStr "2025-01-01T00:00:00.2Z"))
          "topic" (VStr "Renewable Energy").
Proof.
  vm_compute. repeat split; try reflexivity. discriminate.
Qed.

(** * Further properties of the server *)

(** ** The adapter, path by path *)

Section AdapterRuns.

Variable cfg : Config.
Variable rt : Runtime.

(** What a call does once it has a key and a well-formed endpoint. *)
Lemma callMegaLLM_run (h : string) messages maxTokens (w : World) :
  MEGALLM_API_KEY cfg <> "" ->
  URL_hostname rt (MEGALLM_API_URL cfg) = Some h ->
  callMegaLLM cfg rt messages maxTokens w
  = let r := buildRequest cfg (isAnthropicHost h) messages maxTokens in
    let w1 := withRequest r w in
    match axios_post rt (length (sent w)) r with
    | Rejected e => (Throw (rethrown rt e), withHealth rt false w1)
    | Resolved data =>
        match textOfReply (isAnthropicHost h) data with
        | Some x => (Ok x, withHealth rt true w1)
        | None => (Throw (newError genericMessage),
                   withHealth rt false (withHealth rt true w1))
        end
    end.
Proof.
  intros Hkey Hurl. run.
  destruct (String.eqb_spec (MEGALLM_API_KEY cfg) ""); [contradiction|].
  rewrite Hurl. simpl.
  destruct (axios_post rt _ _) as [data | e];
    [|unfold rethrown, faultError; now destruct (rethrowFails e)].
  unfold textOfReply.
  destruct (isAnthropicHost h); simpl.
  - destruct (Js.Get data "content") as [c|]; [|reflexivity]. simpl.
    destruct (Js.Get c "0") as [c0|]; [|reflexivity]. simpl.
    destruct (Js.Get c0 "text"); reflexivity.
  - destruct (Js.Get data "choices") as [cs|]; [|reflexivity]. simpl.
    destruct (Js.Get cs "0") as [c0|]; [|reflexivity]. simpl.
    destruct (Js.Get c0 "message") as [m|]; [|reflexivity]. simpl.
    destruct (Js.Get m "content"); reflexivity.
Qed.

Lemma callMegaLLM_run_invalid_url messages maxTokens (w : World) :
  MEGALLM_API_KEY cfg <> "" ->
  URL_hostname rt (MEGALLM_API_URL cfg) = None ->
  callMegaLLM cfg rt messages maxTokens w
  = (Throw (newError genericMessage), withHealth rt false w).
Proof.
  intros Hkey Hurl. run.
  destruct (String.eqb_spec (MEGALLM_API_KEY cfg) ""); [contradiction|].
  rewrite Hurl. reflexivity.
Qed.

(** X1: a call with a key and a well-formed endpoint whose request is
    answered with a body from which the text can be read
    ([content[0].text] for api.anthropic.com, [choices[0].message.content]
    otherwise) returns exactly that value, has sent that one request, and
    leaves the health flag true with a fresh time stamp. *)
Theorem adapter_returns_reply_text (h : string) messages maxTokens (w : World) data x :
  MEGALLM_API_KEY cfg <> "" ->
  URL_hostname rt (MEGALLM_API_URL cfg) = Some h ->
  axios_post rt (length (sent w))
    (buildRequest cfg (isAnthropicHost h) messages maxTokens) = Resolved data ->
  textOfReply (isAnthropicHost h) data = Some x ->
  callMegaLLM cfg rt messages maxTokens w
  = (Ok x,
     withHealth rt true
       (withRequest (buildRequest cfg (isAnthropicHost h) messages maxTokens) w)).
Proof.
  intros Hkey Hurl Hpost Htext.
  rewrite (callMegaLLM_run h) by assumption. simpl. now rewrite Hpost, Htext.
Qed.

(** X2: after any call made with a key, the health flag says whether
    that call returned: [healthy] is true exactly when the call did not
    throw, [lastCheck] is the latest reading of the clock, and
    [configured] and the identifier counter are untouched. *)
Theorem health_flag_reflects_last_call messages maxTokens (w : World) :
  MEGALLM_API_KEY cfg <> "" ->
  let res := fst (callMegaLLM cfg rt messages maxTokens w) in
  let w' := snd (callMegaLLM cfg rt messages maxTokens w) in
  healthy (apiStatus w') = match res with Ok _ => true | Throw _ => false end
  /\ (clock w < clock w')%nat
  /\ lastCheck (apiStatus w') = Some (Date_toISOString rt (clock w' - 1))
  /\ configured (apiStatus w') = configured (apiStatus w)
  /\ uuids w' = uuids w.
Proof.
  intros Hkey.
  destruct (URL_hostname rt (MEGALLM_API_URL cfg)) as [h|] eqn:Hurl.
  - rewrite (callMegaLLM_run h) by assumption. simpl.
    destruct (axios_post rt _ _) as [data | e]; simpl.
    + destruct (textOfReply _ data); simpl;
        rewrite ?Nat.sub_0_r; repeat split; lia.
    + rewrite ?Nat.sub_0_r; repeat split; lia.
  - rewrite callMegaLLM_run_invalid_url by assumption. simpl.
    rewrite ?Nat.sub_0_r; repeat split; lia.
Qed.

Lemma callMegaLLM_log messages maxTokens (w : World) :
  let w' := snd (callMegaLLM cfg rt messages maxTokens w) in
  sent w' = sent w
  \/ exists r, sent w' = (sent w ++ [r])%list
               /\ url r = MEGALLM_API_URL cfg /\ timeout r = 120000.
Proof.
  destruct (String.eqb_spec (MEGALLM_API_KEY cfg) "") as [E | Hkey].
  { left. unfold callMegaLLM. now rewrite E. }
  destruct (URL_hostname rt (MEGALLM_API_URL cfg)) as [h|] eqn:Hurl.
  - right. exists (buildRequest cfg (isAnthropicHost h) messages maxTokens).
    split; [now apply callMegaLLM_sent|].
    unfold buildRequest. now destruct (isAnthropicHost h).
  - left. now rewrite callMegaLLM_run_invalid_url.
Qed.

Lemma callMegaLLM_extends messages maxTokens (w : World) :
  extends 1 w (snd (callMegaLLM cfg rt messages maxTokens w)).
Proof.
  split.
  { destruct (callMegaLLM_log messages maxTokens w) as [E | (r & E & _)].
    - exists []. rewrite app_nil_r. split; [exact E | simpl; lia].
    - exists [r]. split; [exact E | simpl; lia]. }
  destruct (String.eqb_spec (MEGALLM_API_KEY cfg) "") as [E | Hkey].
  { unfold callMegaLLM. rewrite E. simpl. auto. }
  destruct (URL_hostname rt (MEGALLM_API_URL cfg)) as [h|] eqn:Hurl.
  - rewrite (callMegaLLM_run h) by assumption. simpl.
    destruct (axios_post rt _ _) as [data | e]; simpl.
    + destruct (textOfReply _ data); simpl; repeat split; lia.
    + repeat split; lia.
  - rewrite callMegaLLM_run_invalid_url by assumption. simpl. repeat split; lia.
Qed.

(** X3: one call makes at most one upstream request, never a retry:
    the log of requests is either as before or longer by one request,
    which goes to the configured URL with a timeout of 120000 ms. *)
Theorem adapter_sends_at_most_once messages maxTokens (w : World) :
  let w' := snd (callMegaLLM cfg rt messages maxTokens w) in
  sent w' = sent w
  \/ exists r, sent w' = (sent w ++ [r])%list
               /\ url r = MEGALLM_API_URL cfg /\ timeout r = 120000.
Proof. apply callMegaLLM_log. Qed.

(** X4: when the configured URL is not well formed, a call with a key
    sends nothing, throws the generic message and records a failure. *)
Theorem invalid_endpoint_fails_without_sending messages maxTokens (w : World) :
  MEGALLM_API_KEY cfg <> "" ->
  URL_hostname rt (MEGALLM_API_URL cfg) = None ->
  let res := fst (callMegaLLM cfg rt messages maxTokens w) in
  let w' := snd (callMegaLLM cfg rt messages maxTokens w) in
  res = Throw (newError genericMessage)
  /\ sent w' = sent w
  /\ healthy (apiStatus w') = false.
Proof.
  intros Hkey Hurl. rewrite callMegaLLM_run_invalid_url by assumption. auto.
Qed.

(** X5: a 2xx reply whose body lacks the expected text path counts as a
    failure: the call throws the generic message, and the health flag,
    set to true when the reply arrived, ends false, the clock having been
    read twice. *)
Theorem malformed_reply_counts_as_failure (h : string) messages maxTokens (w : World) data :
  MEGALLM_API_KEY cfg <> "" ->
  URL_hostname rt (MEGALLM_API_URL cfg) = Some h ->
  axios_post rt (length (sent w))
    (buildRequest cfg (isAnthropicHost h) messages maxTokens) = Resolved data ->
  textOfReply (isAnthropicHost h) data = None ->
  let res := fst (callMegaLLM cfg rt messages maxTokens w) in
  let w' := snd (callMegaLLM cfg rt messages maxTokens w) in
  res = Throw (newError genericMessage)
  /\ healthy (apiStatus w') = false
  /\ clock w' = S (S (clock w))
  /\ lastCheck (apiStatus w') = Some (Date_toISOString rt (S (clock w))).
Proof.
  intros Hkey Hurl Hpost Htext.
  rewrite (callMegaLLM_run h) by assumption. simpl. rewrite Hpost, Htext. auto.
Qed.

(** X6: when the upstream request is rejected, the call throws another
    error in place of the rejection, after one request and with the
    health flag false: a new error without code or response whose
    message is the friendly message of the rejection, or, when the catch
    block takes the branch of the upstream's own message and that
    message cannot be converted to text, the TypeError of the
    conversion.  The numbers that an upstream message prints are taken
    to be safe integers. *)
Theorem rejection_is_rethrown_friendly (h : string) messages maxTokens (w : World) e :
  MEGALLM_API_KEY cfg <> "" ->
  URL_hostname rt (MEGALLM_API_URL cfg) = Some h ->
  axios_post rt (length (sent w))
    (buildRequest cfg (isAnthropicHost h) messages maxTokens) = Rejected e ->
  Js.printsExactly (upstreamMessage e) = true ->
  callMegaLLM cfg rt messages maxTokens w
  = (Throw (if rethrowFails e then faultError rt NoPrimitive
            else {| message := friendlyMessage e; code := None; response := None |}),
     withHealth rt false
       (withRequest (buildRequest cfg (isAnthropicHost h) messages maxTokens) w)).
Proof.
  intros Hkey Hurl Hpost _.
  rewrite (callMegaLLM_run h) by assumption. simpl. now rewrite Hpost.
Qed.

End AdapterRuns.

(** X7: an error that takes none of the status or code branches and
    whose response body carries a non-empty [error.message] gets that
    message, prefixed, as its friendly message. *)
Theorem upstream_message_is_passed_through (e : JsError) s d ed m :
  response e = Some (s, VObj d) ->
  Js.own d "error" = Some (VObj ed) ->
  Js.own ed "message" = Some (VStr m) ->
  m <> "" ->
  s <> 401 -> s <> 429 -> s <> 500 -> s <> 502 -> s <> 503 ->
  code e <> Some "ECONNABORTED" -> code e <> Some "ENOTFOUND" ->
  code e <> Some "ECONNREFUSED" ->
  friendlyMessage e = "AI Service Error: " +:+ m.
Proof.
  intros Hr Hd Hed Hm ? ? ? ? ? ? ? ?.
  unfold friendlyMessage, optChain. rewrite Hr. simpl. rewrite Hd. simpl. rewrite Hed. simpl.
  repeat (case_bool_decide; [congruence|]). simpl.
  destruct (String.eqb_spec m ""); [contradiction | reflexivity].
Qed.

Lemma upstream_message_witness :
  friendlyMessage (mkJsError "Request failed with status code 400"
                     (Some "ERR_BAD_REQUEST")
                     (Some (400, VObj [("error", VObj [("message", VStr "max_tokens too large")])])))
  = "AI Service Error: max_tokens too large".
Proof.
  apply (upstream_message_is_passed_through _ 400
           [("error", VObj [("message", VStr "max_tokens too large")])]
           [("message", VStr "max_tokens too large")]);
    try reflexivity; try discriminate; lia.
Defined.

Lemma adapter_returns_reply_text_witness :
  fst (callMegaLLM Scenario.cfg Scenario.rt Scenario.hello 100 (startup Scenario.cfg))
  = Ok (VStr (Scenario.fenced (Example.textOf Example.stage1Document))).
Proof.
  rewrite (adapter_returns_reply_text Scenario.cfg Scenario.rt "llm.example.com"
             Scenario.hello 100 (startup Scenario.cfg)
             (VObj [("choices",
                     VArr [VObj [("message",
                                  VObj [("role", VStr "assistant");
                                        ("content",
                                         VStr (Scenario.fenced
                                                 (Example.textOf Example.stage1Document)))])]])])
             (VStr (Scenario.fenced (Example.textOf Example.stage1Document))));
    [reflexivity | discriminate | reflexivity | reflexivity | reflexivity].
Defined.

Lemma health_flag_reflects_witness :
  healthy (apiStatus (snd (callMegaLLM Scenario.cfg Scenario.rtDown Scenario.hello 100
                             (startup Scenario.cfg)))) = false.
Proof.
  destruct (health_flag_reflects_last_call Scenario.cfg Scenario.rtDown
              Scenario.hello 100 (startup Scenario.cfg)) as [H _]; [discriminate|].
  rewrite H. reflexivity.
Defined.

Lemma invalid_endpoint_witness :
  fst (callMegaLLM Scenario.badUrl Example.rt Scenario.hello 100 (startup Scenario.badUrl))
  = Throw (newError genericMessage).
Proof.
  apply (invalid_endpoint_fails_without_sending Scenario.badUrl Example.rt);
    [discriminate | reflexivity].
Defined.

Lemma malformed_reply_witness :
  fst (callMegaLLM Scenario.cfg Scenario.rtEmpty Scenario.hello 100 (startup Scenario.cfg))
  = Throw (newError genericMessage).
Proof.
  apply (malformed_reply_counts_as_failure Scenario.cfg Scenario.rtEmpty "llm.example.com"
           Scenario.hello 100 (startup Scenario.cfg) (VObj [("choices", VArr [])]));
    [discriminate | reflexivity | reflexivity | reflexivity].
Defined.

Lemma rejection_witness :
  fst (callMegaLLM Scenario.cfg Scenario.rtDown Scenario.hello 100 (startup Scenario.cfg))
  = Throw (newError "API rate limit exceeded. Please wait a moment and try again.").
Proof.
  rewrite (rejection_is_rethrown_friendly Scenario.cfg Scenario.rtDown "llm.example.com"
             Scenario.hello 100 (startup Scenario.cfg) Scenario.rateLimited);
    [reflexivity | discriminate | reflexivity | reflexivity | reflexivity].
Defined.

(** A rejection whose [error.message] cannot be converted to text: the
    catch block throws the TypeError of the conversion in either
    revision, the current one after it has recorded the failure. *)
Lemma unconvertible_message_throws_type_error :
  let current :=
    callMegaLLM Scenario.cfg Scenario.rtBadMessage Scenario.hello 100
      (startup Scenario.cfg) in
  let earlier :=
    Earlier.callMegaLLM Scenario.cfg Scenario.rtBadMessage Scenario.hello 100
      (startup Scenario.cfg) in
  rethrowFails Scenario.badMessage = true
  /\ fst current = Throw (faultError Scenario.rtBadMessage NoPrimitive)
  /\ healthy (apiStatus (snd current)) = false
  /\ fst earlier = Throw (faultError Scenario.rtBadMessage NoPrimitive).
Proof. vm_compute. repeat split; reflexivity. Qed.

(** ** The stages and the route, path by path *)

Section StageRuns.

Variable cfg : Config.
Variable rt : Runtime.

Lemma extends_refl (w : World) : extends 0 w w.
Proof.
  split; [exists []; rewrite app_nil_r; auto|]. repeat split; lia.
Qed.

Lemma extends_trans n m (w w1 w2 : World) :
  extends n w w1 -> extends m w1 w2 -> extends (n + m) w w2.
Proof.
  intros [(l1 & E1 & L1) (C1 & U1 & K1)] [(l2 & E2 & L2) (C2 & U2 & K2)].
  split.
  - exists (l1 ++ l2)%list. rewrite E2, E1, <- app_assoc, length_app.
    split; [reflexivity | lia].
  - repeat split; (congruence || lia).
Qed.

Lemma extends_weaken n m (w w' : World) : (n <= m)%nat -> extends n w w' -> extends m w w'.
Proof.
  intros Hnm [(l & E & L) H]. split; [exists l; split; [exact E | lia] | exact H].
Qed.

(** The statements of both stages after the upstream call leave the
    state alone. *)
Lemma parse_reply_world (x : value) (w : World) :
  snd ((let* text := trimReceiver rt x in parseJson rt (stripFence text)) w) = w.
Proof.
  unfold trimReceiver, parseJson, raise, bind, ret, throw.
  destruct x; simpl; try reflexivity. now destruct (JSON_parse rt _).
Qed.

Lemma stage1_world (topic : value) (w : World) :
  snd (generatePresentationStructure cfg rt topic w)
  = snd (callMegaLLM cfg rt (structureMessages rt topic) 8000 w).
Proof.
  unfold generatePresentationStructure, structureMessages, bind at 1.
  destruct (callMegaLLM cfg rt _ 8000 w) as [[x | e] w1]; [|reflexivity].
  apply parse_reply_world.
Qed.

Lemma fetch_array (props : list (string * value)) items (w : World) :
  Js.own props "slides" = Some (VArr items) ->
  fetchEnhancements cfg rt (VObj props) w
  = match callMegaLLM cfg rt (enhanceMessages rt (VArr (take 5 items))) 4000 w with
    | (Ok x, w1) => (let* text := trimReceiver rt x in parseJson rt (stripFence text)) w1
    | (Throw e, w1) => (Throw e, w1)
    end.
Proof.
  intros H. unfold fetchEnhancements, get, bind at 1 2. simpl. rewrite H. reflexivity.
Qed.

Lemma fetch_extends (presentation : value) (w : World) :
  extends 1 w (snd (fetchEnhancements cfg rt presentation w)).
Proof.
  unfold fetchEnhancements, get, sliceFirst5, raise, bind at 1 2, throw, ret.
  destruct (Js.Get presentation "slides") as [slides|]; simpl;
    [|apply (extends_weaken 0); [lia | apply extends_refl]].
  destruct slides; simpl;
    try (apply (extends_weaken 0); [lia | apply extends_refl]).
  all: unfold bind at 1;
    match goal with
    | |- context [callMegaLLM _ _ ?m ?t ?w0] =>
        pose proof (callMegaLLM_extends cfg rt m t w0) as Hx;
        destruct (callMegaLLM cfg rt m t w0) as [[x | e] w1]
    end; simpl in *; [|exact Hx]; now rewrite parse_reply_world.
Qed.

Lemma enhance_world (presentation : value) (w : World) :
  snd (enhancePresentation cfg rt presentation w)
  = snd (fetchEnhancements cfg rt presentation w).
Proof.
  unfold enhancePresentation, tryCatch, bind, ret.
  now destruct (fetchEnhancements cfg rt presentation w) as [[x | e] w1].
Qed.

(** The route once the topic has passed validation: stage 1, stage 2,
    then the three writes. *)
Lemma generate_after_validation props topic (w : World) :
  Js.own props "topic" = Some (VStr topic) ->
  ~ JsString.blank topic ->
  generate cfg rt (VObj props) w
  = match generatePresentationStructure cfg rt (VStr topic) w with
    | (Throw e, w1) => (errorReply e, w1)
    | (Ok presentation, w1) =>
        match enhancePresentation cfg rt presentation w1 with
        | (Throw e, w2) => (errorReply e, w2)
        | (Ok enhanced, w2) =>
            if nullish enhanced
            then (errorReply (faultError rt WriteToNullish), withId w2)
            else ({| status := 200;
                     json := stamped enhanced (uuidv4 rt (uuids w2))
                               (Date_toISOString rt (clock w2)) (VStr topic) |},
                  withTick (withId w2))
        end
    end.
Proof.
  intros Htopic Hnb.
  assert (Hne : JsString.trim topic <> "").
  { intros E. now apply Hnb, RouteFacts.trim_empty_blank. }
  unfold generate, get, trimReceiver, bind at 1 2, ret at 1 2. simpl. rewrite Htopic. simpl.
  destruct (String.eqb_spec topic "") as [-> | _]; [now destruct Hne|]. simpl.
  destruct (JsString.trim topic) eqn:Et; [now destruct Hne|]. simpl.
  unfold bind at 1.
  destruct (generatePresentationStructure cfg rt (VStr topic) w) as [[p | e] w1];
    [|reflexivity].
  unfold bind at 1.
  destruct (enhancePresentation cfg rt p w1) as [[p' | e] w2]; [|reflexivity].
  unfold freshId, put, now, raise, bind, ret, throw.
  destruct p'; reflexivity.
Qed.

Lemma stage1_run (topic : value) (w : World) :
  generatePresentationStructure cfg rt topic w
  = match callMegaLLM cfg rt (structureMessages rt topic) 8000 w with
    | (Ok x, w1) => (let* text := trimReceiver rt x in parseJson rt (stripFence text)) w1
    | (Throw e, w1) => (Throw e, w1)
    end.
Proof. reflexivity. Qed.



Lemma friendlyMessage_nonempty (e : JsError) : String.eqb (friendlyMessage e) "" = false.
Proof.
  apply String.eqb_neq.
  destruct (ErrorFacts.friendlyMessage_by_class e) as [-> | (_ & x & ->)].
  - now destruct (errorClass e).
  - JsStringFacts.unapp. discriminate.
Qed.


(** X9: when the upstream rejects the request of stage 1, the route
    answers 500 after that single request: stage 2 is not attempted and
    no identifier is drawn.  The error of the reply is the friendly
    message of the rejection, or, when the adapter could not build that
    message because the upstream's own message cannot be converted to
    text, the message of the TypeError of the conversion.  The numbers
    that an upstream message prints are taken to be safe integers. *)
Theorem structure_rejection_fails_request props topic (h : string) (w : World) e :
  Js.own props "topic" = Some (VStr topic) ->
  ~ JsString.blank topic ->
  MEGALLM_API_KEY cfg <> "" ->
  URL_hostname rt (MEGALLM_API_URL cfg) = Some h ->
  axios_post rt (length (sent w))
    (buildRequest cfg (isAnthropicHost h) (structureMessages rt (VStr topic)) 8000)
  = Rejected e ->
  Js.printsExactly (upstreamMessage e) = true ->
  generate cfg rt (VObj props) w
  = (if rethrowFails e then errorReply (faultError rt NoPrimitive)
     else {| status := 500; json := errorBody (friendlyMessage e) |},
     withHealth rt false
       (withRequest
          (buildRequest cfg (isAnthropicHost h) (structureMessages rt (VStr topic)) 8000)
          w)).
Proof.
  intros Htopic Hnb Hkey Hurl Hpost _.
  rewrite (generate_after_validation props topic) by assumption.
  rewrite stage1_run, (callMegaLLM_run cfg rt h) by assumption. simpl.
  rewrite Hpost. unfold rethrown. destruct (rethrowFails e); [reflexivity|].
  unfold errorReply. simpl. now rewrite friendlyMessage_nonempty.
Qed.

(** X10: when the reply of stage 1 is no string, or is a text whose
    stripped form does not parse, the route answers 500 after that
    single request, with no second request and no identifier drawn;
    the health flag stays true, since the upstream call itself
    succeeded. *)
Theorem unparseable_structure_fails_request props topic (h : string) (w : World) data x :
  Js.own props "topic" = Some (VStr topic) ->
  ~ JsString.blank topic ->
  MEGALLM_API_KEY cfg <> "" ->
  URL_hostname rt (MEGALLM_API_URL cfg) = Some h ->
  axios_post rt (length (sent w))
    (buildRequest cfg (isAnthropicHost h) (structureMessages rt (VStr topic)) 8000)
  = Resolved data ->
  textOfReply (isAnthropicHost h) data = Some x ->
  (forall s, x = VStr s -> JSON_parse rt (stripFence s) = None) ->
  let reply := fst (generate cfg rt (VObj props) w) in
  let w' := snd (generate cfg rt (VObj props) w) in
  status reply = 500
  /\ w' = withHealth rt true
            (withRequest
               (buildRequest cfg (isAnthropicHost h)
                  (structureMessages rt (VStr topic)) 8000) w)
  /\ healthy (apiStatus w') = true.
Proof.
  intros Htopic Hnb Hkey Hurl Hpost Htext Hx.
  rewrite (generate_after_validation props topic) by assumption.
  rewrite stage1_run, (callMegaLLM_run cfg rt h) by assumption. simpl.
  rewrite Hpost, Htext. unfold trimReceiver, parseJson, raise, bind, ret, throw.
  destruct x; simpl; auto.
  rewrite (Hx s eq_refl). simpl. auto.
Qed.

Lemma stage1_extends (topic : value) (w : World) :
  extends 1 w (snd (generatePresentationStructure cfg rt topic w)).
Proof. rewrite stage1_world. apply callMegaLLM_extends. Qed.

Lemma enhance_extends (presentation : value) (w : World) :
  extends 1 w (snd (enhancePresentation cfg rt presentation w)).
Proof. rewrite enhance_world. apply fetch_extends. Qed.

(** The state a generate request leaves: the state after at most two
    upstream calls, with at most one identifier and one more reading of
    the clock on top. *)
Lemma generate_world_cases (reqBody : value) (w : World) :
  exists w2,
    extends 2 w w2
    /\ (snd (generate cfg rt reqBody w) = w2
        \/ snd (generate cfg rt reqBody w) = withId w2
        \/ (snd (generate cfg rt reqBody w) = withTick (withId w2)
            /\ status (fst (generate cfg rt reqBody w)) = 200))
    /\ (status (fst (generate cfg rt reqBody w)) = 200 ->
        snd (generate cfg rt reqBody w) = withTick (withId w2)).
Proof.
  assert (Hstay : forall n : Z, n <> 200 ->
            exists w2, extends 2 w w2
              /\ (w = w2 \/ w = withId w2 \/ (w = withTick (withId w2) /\ n = 200))
              /\ (n = 200 -> w = withTick (withId w2))).
  { intros n Hn. exists w. split; [apply (extends_weaken 0); [lia | apply extends_refl]|].
    split; [now left | contradiction]. }
  unfold generate, get, trimReceiver, raise, bind, throw, ret.
  destruct (Js.Get reqBody "topic") as [topic|]; simpl; [|apply Hstay; lia].
  destruct (Js.truthy topic); simpl; [|apply Hstay; lia].
  destruct topic; simpl; try (apply Hstay; lia).
  destruct (String.length (JsString.trim s) =? 0)%nat; simpl; [apply Hstay; lia|].
  pose proof (stage1_extends (VStr s) w) as H1.
  destruct (generatePresentationStructure cfg rt (VStr s) w) as [[p | e] w1]; simpl in H1.
  2:{ exists w1. split; [now apply (extends_weaken 1); [lia|]|].
      split; [now left | simpl; intros; lia]. }
  pose proof (enhance_extends p w1) as H2.
  destruct (enhancePresentation cfg rt p w1) as [[p' | e] w2]; simpl in H2.
  2:{ exists w2. split; [apply (extends_trans 1 1 _ _ _ H1 H2)|].
      split; [now left | simpl; intros; lia]. }
  exists w2. split; [apply (extends_trans 1 1 _ _ _ H1 H2)|].
  unfold freshId, put, now, raise, throw, ret.
  destruct p'; simpl; (split; [auto | intros; (reflexivity || lia)]).
Qed.

(** X11: the request of stage 2 shows the model the first five slides
    only: for a document whose [slides] is an array, the one request the
    stage sends carries the stage-2 system prompt and the serialization
    of the first five slides, with a budget of 4000 tokens, whatever
    the later slides are.  The first five slides are taken to be values
    that the serialization prints exactly: their numbers are safe
    integers and the keys of their objects are distinct and not made of
    digits. *)
Theorem enhancement_request_shows_first_five_slides
    (h : string) props items (w : World) :
  MEGALLM_API_KEY cfg <> "" ->
  URL_hostname rt (MEGALLM_API_URL cfg) = Some h ->
  Js.own props "slides" = Some (VArr items) ->
  Json.exact (VArr (take 5 items)) = true ->
  sent (snd (enhancePresentation cfg rt (VObj props) w))
  = (sent w ++ [buildRequest cfg (isAnthropicHost h)
                  (enhanceMessages rt (VArr (take 5 items))) 4000])%list.
Proof.
  intros Hkey Hurl Hslides _. rewrite enhance_world, (fetch_array props items) by assumption.
  rewrite <- (callMegaLLM_sent cfg rt h _ _ w Hkey Hurl).
  destruct (callMegaLLM cfg rt _ 4000 w) as [[x | e] w1]; [|reflexivity].
  now rewrite parse_reply_world.
Qed.

(** X12: a document that has no [slides], or whose [slides] is neither
    an array nor a string, is returned as it is without any upstream
    request: the stage gives up before calling the adapter. *)
Theorem enhancement_skipped_without_slides (presentation : value) (w : World) :
  match Js.Get presentation "slides" with
  | Some (VArr _) | Some (VStr _) => False
  | _ => True
  end ->
  enhancePresentation cfg rt presentation w = (Ok presentation, w).
Proof.
  unfold enhancePresentation, fetchEnhancements, tryCatch, get, sliceFirst5, raise,
         bind, throw, ret.
  destruct (Js.Get presentation "slides") as [[]|]; simpl; (contradiction || reflexivity).
Qed.

Lemma enhance_failure_run (h : string) props items (w : World) o :
  MEGALLM_API_KEY cfg <> "" ->
  URL_hostname rt (MEGALLM_API_URL cfg) = Some h ->
  Js.own props "slides" = Some (VArr items) ->
  axios_post rt (length (sent w))
    (buildRequest cfg (isAnthropicHost h) (enhanceMessages rt (VArr (take 5 items))) 4000)
  = o ->
  failsBeforeMerge rt (isAnthropicHost h) o ->
  exists w', enhancePresentation cfg rt (VObj props) w = (Ok (VObj props), w')
             /\ (clock w < clock w')%nat.
Proof.
  intros Hkey Hurl Hslides Hpost Hfail.
  unfold enhancePresentation, tryCatch, bind at 1, ret.
  rewrite (fetch_array props items), (callMegaLLM_run cfg rt h) by assumption. simpl.
  rewrite Hpost. destruct o as [data | e]; simpl in *.
  - destruct (textOfReply (isAnthropicHost h) data) as [x|]; simpl.
    + unfold trimReceiver, parseJson, raise, bind, ret, throw.
      destruct x; simpl; try (eexists; split; [reflexivity | simpl; lia]).
      rewrite Hfail. simpl. eexists; split; [reflexivity | simpl; lia].
    + eexists; split; [reflexivity | simpl; lia].
  - eexists; split; [reflexivity | simpl; lia].
Qed.

(** X13: when stage 2 fails before the merge (the upstream call is
    rejected, its body has no text, the text is no string or does not
    parse), the stage returns the document it was given, unchanged,
    having sent one request and no more. *)
Theorem enhancement_failure_returns_document (h : string) props items (w : World) o :
  MEGALLM_API_KEY cfg <> "" ->
  URL_hostname rt (MEGALLM_API_URL cfg) = Some h ->
  Js.own props "slides" = Some (VArr items) ->
  axios_post rt (length (sent w))
    (buildRequest cfg (isAnthropicHost h) (enhanceMessages rt (VArr (take 5 items))) 4000)
  = o ->
  failsBeforeMerge rt (isAnthropicHost h) o ->
  fst (enhancePresentation cfg rt (VObj props) w) = Ok (VObj props)
  /\ exists r, sent (snd (enhancePresentation cfg rt (VObj props) w))
               = (sent w ++ [r])%list.
Proof.
  intros Hkey Hurl Hslides Hpost Hfail.
  destruct (enhance_failure_run h props items w o) as (w' & E & _); try assumption.
  split; [now rewrite E|].
  exists (buildRequest cfg (isAnthropicHost h)
            (enhanceMessages rt (VArr (take 5 items))) 4000).
  rewrite enhance_world, (fetch_array props items) by assumption.
  rewrite <- (callMegaLLM_sent cfg rt h _ _ w Hkey Hurl).
  destruct (callMegaLLM cfg rt _ 4000 w) as [[x | e] w1]; [|reflexivity].
  now rewrite parse_reply_world.
Qed.

(** X14: stage 2 is best effort.  For every document and state it
    returns a document and never throws; the document it returns is
    [null] or [undefined] exactly when the one it was given is; and it
    sends at most one upstream request, draws no identifier and leaves
    [configured] alone. *)
Theorem enhancement_is_best_effort (presentation : value) (w : World) :
  exists presentation',
    fst (enhancePresentation cfg rt presentation w) = Ok presentation'
    /\ nullish presentation' = nullish presentation
    /\ extends 1 w (snd (enhancePresentation cfg rt presentation w)).
Proof.
  destruct (enhancePresentation_returns cfg rt presentation w) as (p' & w' & E).
  exists p'. split; [now rewrite E|]. split.
  - now apply (enhancePresentation_nullish cfg rt _ _ _ _ E).
  - apply enhance_extends.
Qed.

(** X15: once stage 1 has produced a document, the status of the reply
    no longer depends on anything stage 2 does: it is 200, unless the
    document is [null], in which case it is 500. *)
Theorem reply_status_decided_by_stage1 props topic presentation (w w1 : World) :
  Js.own props "topic" = Some (VStr topic) ->
  ~ JsString.blank topic ->
  generatePresentationStructure cfg rt (VStr topic) w = (Ok presentation, w1) ->
  status (fst (generate cfg rt (VObj props) w))
  = if nullish presentation then 500 else 200.
Proof.
  intros Htopic Hnb Hstage1.
  apply (generate_status_after_stage1 cfg rt props topic presentation w w1); auto.
  intros E. now apply Hnb, RouteFacts.trim_empty_blank.
Qed.

(** X16: a topic that is truthy but no string (a number, [true], an
    array, an object) makes the route answer 500 with the runtime's
    message for a call of a non-function, without any upstream request
    and with the state untouched. *)
Theorem non_string_topic_is_a_server_error props topic (w : World) :
  Js.own props "topic" = Some topic ->
  Js.truthy topic = true ->
  (forall s, topic <> VStr s) ->
  generate cfg rt (VObj props) w = (errorReply (faultError rt NotAFunction), w).
Proof.
  intros Htopic Htruthy Hns.
  unfold generate, get, trimReceiver, raise, bind, throw, ret. simpl.
  rewrite Htopic. simpl. rewrite Htruthy. simpl.
  destruct topic; try discriminate; try reflexivity.
  now destruct (Hns s).
Qed.

(** X17: every reply with status 200 has been stamped last: when it is
    an object, its [id] is the identifier drawn for this request, its
    [topic] is the topic string of the request and its [createdAt] is a
    time stamp, whatever the model returned under these names; exactly
    one identifier has been drawn. *)
Theorem successful_reply_is_stamped (reqBody : value) (w : World) :
  status (fst (generate cfg rt reqBody w)) = 200 ->
  exists topic,
    Js.Get reqBody "topic" = Some (VStr topic)
    /\ uuids (snd (generate cfg rt reqBody w)) = S (uuids w)
    /\ forall ps, json (fst (generate cfg rt reqBody w)) = VObj ps ->
         Js.own ps "id" = Some (VStr (uuidv4 rt (uuids w)))
         /\ Js.own ps "topic" = Some (VStr topic)
         /\ exists t, Js.own ps "createdAt" = Some (VStr t).
Proof.
  unfold generate, get, trimReceiver, raise, bind, throw, ret.
  destruct (Js.Get reqBody "topic") as [topic|]; simpl; [|lia].
  destruct (Js.truthy topic); simpl; [|lia].
  destruct topic; simpl; try lia.
  destruct (String.length (JsString.trim s) =? 0)%nat; simpl; [lia|].
  pose proof (stage1_extends (VStr s) w) as (_ & _ & U1 & _).
  destruct (generatePresentationStructure cfg rt (VStr s) w) as [[p | e] w1];
    simpl in *; [|lia].
  pose proof (enhance_extends p w1) as (_ & _ & U2 & _).
  destruct (enhancePresentation cfg rt p w1) as [[p' | e] w2]; simpl in *; [|lia].
  unfold freshId, put, now, raise, throw, ret.
  destruct p'; simpl; try lia; intros _; exists s;
    (split; [reflexivity|]); (split; [congruence|]); intros ps; try discriminate.
  intros [= <-]. split; [|split].
  - rewrite !JsFacts.own_assign_ne by discriminate.
    rewrite JsFacts.own_assign_eq. now rewrite U2, U1.
  - apply JsFacts.own_assign_eq.
  - rewrite JsFacts.own_assign_ne by discriminate.
    rewrite JsFacts.own_assign_eq. eauto.
Qed.

(** X18: one generate request makes at most two upstream requests,
    draws at most one identifier and never changes [configured]. *)
Theorem generate_sends_at_most_twice (reqBody : value) (w : World) :
  let w' := snd (generate cfg rt reqBody w) in
  (exists l, sent w' = (sent w ++ l)%list /\ (length l <= 2)%nat)
  /\ configured (apiStatus w') = configured (apiStatus w)
  /\ (uuids w <= uuids w' <= S (uuids w))%nat.
Proof.
  destruct (generate_world_cases reqBody w)
    as (w2 & [Hlog (Hc & Hu & _)] & Hcase & _).
  simpl. destruct Hcase as [-> | [-> | [-> _]]]; simpl; repeat split; auto; lia.
Qed.

(** X19: the health route after a generate request.  Started from the
    initial state, whatever the request and however it ended, the route
    answers 200 with [apiConfigured] and [status] telling whether a key
    is set, the configured model, and the missing-key [message] exactly
    when no key is set. *)
Theorem health_tracks_configuration (reqBody : value) :
  let w' := snd (generate cfg rt reqBody (startup cfg)) in
  let answer := json (health cfg w') in
  let keyed := negb (String.eqb (MEGALLM_API_KEY cfg) "") in
  status (health cfg w') = 200
  /\ Js.Get answer "apiConfigured" = Some (VBool keyed)
  /\ Js.Get answer "status" = Some (VStr (if keyed then "ok" else "unconfigured"))
  /\ Js.Get answer "model" = Some (VStr (MEGALLM_MODEL cfg))
  /\ Js.Get answer "message"
     = Some (if keyed then VUndef else VStr missingKeyMessage).
Proof.
  destruct (generate_world_cases reqBody (startup cfg))
    as (w2 & [_ (Hc & _)] & Hcase & _).
  simpl in Hc.
  assert (Hconf : configured (apiStatus (snd (generate cfg rt reqBody (startup cfg))))
                  = negb (String.eqb (MEGALLM_API_KEY cfg) "")).
  { destruct Hcase as [-> | [-> | [-> _]]]; exact Hc. }
  simpl. unfold health. rewrite Hconf.
  destruct (negb (String.eqb (MEGALLM_API_KEY cfg) "")); simpl; auto.
Qed.

(** X20: the whole route on the path where everything succeeds.  Once
    stage 1 has produced an object with a [slides] array and the second
    upstream call returns a text that parses to [enhancements], the
    reply is 200 and carries the document left by the merge of
    [enhancements] into the stage-1 document, whether the merge has
    completed or has thrown on an entry, stamped with the request's
    identifier, the time and the topic; the health flag is true, one
    more request has gone out and one identifier has been drawn. *)
Theorem generate_merges_and_stamps
    props topic dprops items (h : string) (w w1 : World) data s enhancements :
  Js.own props "topic" = Some (VStr topic) ->
  ~ JsString.blank topic ->
  generatePresentationStructure cfg rt (VStr topic) w = (Ok (VObj dprops), w1) ->
  Js.own dprops "slides" = Some (VArr items) ->
  MEGALLM_API_KEY cfg <> "" ->
  URL_hostname rt (MEGALLM_API_URL cfg) = Some h ->
  axios_post rt (length (sent w1))
    (buildRequest cfg (isAnthropicHost h) (enhanceMessages rt (VArr (take 5 items))) 4000)
  = Resolved data ->
  textOfReply (isAnthropicHost h) data = Some (VStr s) ->
  JSON_parse rt (stripFence s) = Some enhancements ->
  let reply := fst (generate cfg rt (VObj props) w) in
  let w' := snd (generate cfg rt (VObj props) w) in
  reply = {| status := 200;
             json := stamped (snd (applyEnhancements enhancements (VObj dprops)))
                       (uuidv4 rt (uuids w1)) (Date_toISOString rt (S (clock w1)))
                       (VStr topic) |}
  /\ healthy (apiStatus w') = true
  /\ (exists r, sent w' = (sent w1 ++ [r])%list)
  /\ uuids w' = S (uuids w1).
Proof.
  intros Htopic Hnb Hstage1 Hslides Hkey Hurl Hpost Htext Hparse.
  assert (E : generate cfg rt (VObj props) w
              = ({| status := 200;
                    json := stamped (snd (applyEnhancements enhancements (VObj dprops)))
                              (uuidv4 rt (uuids w1)) (Date_toISOString rt (S (clock w1)))
                              (VStr topic) |},
                 withTick (withId (withHealth rt true
                   (withRequest
                      (buildRequest cfg (isAnthropicHost h)
                         (enhanceMessages rt (VArr (take 5 items))) 4000) w1))))).
  { rewrite (generate_after_validation props topic), Hstage1 by assumption.
    unfold enhancePresentation, tryCatch, bind at 1, ret.
    rewrite (fetch_array dprops items), (callMegaLLM_run cfg rt h) by assumption. simpl.
    rewrite Hpost, Htext. unfold trimReceiver, parseJson, bind, ret.
    rewrite Hparse. simpl.
    pose proof (applyEnhancements_nullish enhancements (VObj dprops)) as Hn.
    simpl in Hn. now rewrite Hn. }
  cbv zeta. rewrite E. simpl. repeat split; eauto.
Qed.

(** X21: the whole route when stage 2 fails before the merge (upstream
    rejection, no text in the body, a text that is no string or does not
    parse): the reply is 200 and is the stage-1 document with [id],
    [createdAt] and [topic] written and nothing else changed. *)
Theorem reply_is_stage1_document_when_enhancement_fails_early
    props topic dprops items (h : string) (w w1 : World) o :
  Js.own props "topic" = Some (VStr topic) ->
  ~ JsString.blank topic ->
  generatePresentationStructure cfg rt (VStr topic) w = (Ok (VObj dprops), w1) ->
  Js.own dprops "slides" = Some (VArr items) ->
  MEGALLM_API_KEY cfg <> "" ->
  URL_hostname rt (MEGALLM_API_URL cfg) = Some h ->
  axios_post rt (length (sent w1))
    (buildRequest cfg (isAnthropicHost h) (enhanceMessages rt (VArr (take 5 items))) 4000)
  = o ->
  failsBeforeMerge rt (isAnthropicHost h) o ->
  exists createdAt,
    fst (generate cfg rt (VObj props) w)
    = {| status := 200;
         json := stamped (VObj dprops) (uuidv4 rt (uuids w1)) createdAt (VStr topic) |}.
Proof.
  intros Htopic Hnb Hstage1 Hslides Hkey Hurl Hpost Hfail.
  rewrite (generate_after_validation props topic), Hstage1 by assumption.
  pose proof (enhance_extends (VObj dprops) w1) as (_ & _ & U & _).
  destruct (enhance_failure_run h dprops items w1 o) as (w' & E & _); try assumption.
  rewrite E in *. simpl in *. rewrite U. eauto.
Qed.

End StageRuns.

(** ** The merge: what it writes and when it completes *)

Module MergeEffects.
Import Js JsFacts.

(** One entry that names a truthy slide: the document afterwards. *)
Lemma applyEntry_exact props items e idx i s notes trans :
  own props "slides" = Some (VArr items) ->
  Get e "slideIndex" = Some idx ->
  Get e "enhancedNotes" = Some notes ->
  Get e "transition" = Some trans ->
  ToString idx = pretty i ->
  items !! i = Some s ->
  truthy s = true ->
  applyEntry (VObj props) e
  = Some (VObj (assign props "slides"
                  (VArr (alter (fun sl => Put sl "transition" trans) i
                           (alter (fun sl => Put sl "enhancedNotes" notes) i items))))).
Proof.
  intros Hslides Hidx Hnotes Htrans Hkey Hi Hts.
  assert (Hlt : (i < length items)%nat) by eauto using lookup_lt_Some.
  assert (Hix : indexOfKey (ToString idx) (length items) = Some i).
  { rewrite Hkey. now apply indexOfKey_pretty. }
  unfold applyEntry.
  change (Get (VObj props) "slides") with (Some (default VUndef (own props "slides"))).
  rewrite Hslides, Hidx, Hnotes, Htrans. cbn [mbind option_bind default from_option id].
  unfold ToPropertyKey. rewrite (numeral_converts _ _ Hkey). cbn [mbind option_bind].
  assert (Hg : Get (VArr items) (ToString idx) = Some s).
  { simpl. now rewrite Hix, Hi. }
  rewrite Hg. cbn [mbind option_bind]. rewrite Hts.
  rewrite (MergeFacts.update_slide props items) by assumption.
  rewrite (MergeFacts.update_slide (assign props "slides" _) _ _ _ (own_assign_eq _ _ _)).
  now rewrite assign_assign, Hix, length_alter, Hix.
Qed.

Lemma Get_None_nullish v k : Get v k = None <-> nullish v = true.
Proof.
  destruct v; simpl; split; try discriminate; try reflexivity;
    repeat case_match; discriminate.
Qed.

Lemma forEachEntry_completes entries : forall props items,
  own props "slides" = Some (VArr items) ->
  fst (forEachEntry entries (VObj props)) = Normal
  <-> Forall (fun e => exists idx, Get e "slideIndex" = Some idx
                                   /\ converts idx = true) entries.
Proof.
  induction entries as [|e r IH]; intros props items Hslides; simpl.
  - split; [constructor | reflexivity].
  - destruct (Get e "slideIndex") as [idx|] eqn:Hidx;
      [destruct (converts idx) eqn:Hconv|].
    + destruct (MergeFacts.applyEntry_step props items e idx Hslides Hidx Hconv)
        as (items1 & -> & _).
      rewrite (IH _ items1 (own_assign_eq _ _ _)).
      split; [constructor; eauto | now inversion 1].
    + rewrite (MergeFacts.applyEntry_unconvertible props items e idx Hslides Hidx Hconv).
      simpl. split; [discriminate|].
      inversion 1 as [|? ? (idx' & E & Hc) _]; congruence.
    + rewrite (MergeFacts.applyEntry_unreadable props items e Hslides Hidx). simpl.
      split; [discriminate|].
      inversion 1 as [|? ? (idx' & E & Hc) _]; congruence.
Qed.

End MergeEffects.

(** X22: an entry whose [slideIndex] names a slide that is an object
    writes its two values into that slide and nowhere else: afterwards
    the slide has the entry's [enhancedNotes] and [transition] (an
    absent one as [undefined]), keeps its other properties, and every
    other slide is as before. *)
Theorem entry_writes_notes_and_transition
    (props : list (string * value)) items e idx (i : nat) sp notes trans :
  Js.own props "slides" = Some (VArr items) ->
  Js.Get e "slideIndex" = Some idx ->
  Js.Get e "enhancedNotes" = Some notes ->
  Js.Get e "transition" = Some trans ->
  Js.ToString idx = pretty i ->
  items !! i = Some (VObj sp) ->
  exists items' sp',
    applyEntry (VObj props) e = Some (VObj (Js.assign props "slides" (VArr items')))
    /\ items' !! i = Some (VObj sp')
    /\ Js.own sp' "enhancedNotes" = Some notes
    /\ Js.own sp' "transition" = Some trans
    /\ (forall k, k <> "enhancedNotes" -> k <> "transition" ->
                  Js.own sp' k = Js.own sp k)
    /\ (forall j, j <> i -> items' !! j = items !! j).
Proof.
  intros Hslides Hidx Hnotes Htrans Hkey Hi.
  eexists _, _. split.
  { eapply (MergeEffects.applyEntry_exact _ _ _ _ i (VObj sp)); eauto. }
  split; [rewrite !list_lookup_alter_eq, Hi; reflexivity|].
  split; [rewrite JsFacts.own_assign_ne by discriminate; apply JsFacts.own_assign_eq|].
  split; [apply JsFacts.own_assign_eq|].
  split.
  - intros k Hn Ht. now rewrite !JsFacts.own_assign_ne by auto.
  - intros j Hj. now rewrite !list_lookup_alter_ne by auto.
Qed.

Lemma entry_writes_witness :
  exists items' sp',
    applyEntry Example.stage1Document
      (VObj [("slideIndex", VStr "1"); ("enhancedNotes", VStr "N")])
    = Some (VObj (Js.assign [("title", VStr "T"); ("subtitle", VStr "S");
                             ("slides", VArr [Example.slide0; Example.slide1]);
                             ("theme", VObj [])] "slides" (VArr items')))
    /\ items' !! 1%nat = Some (VObj sp')
    /\ Js.own sp' "enhancedNotes" = Some (VStr "N")
    /\ Js.own sp' "transition" = Some VUndef.
Proof.
  destruct (entry_writes_notes_and_transition
              [("title", VStr "T"); ("subtitle", VStr "S");
               ("slides", VArr [Example.slide0; Example.slide1]); ("theme", VObj [])]
              [Example.slide0; Example.slide1]
              (VObj [("slideIndex", VStr "1"); ("enhancedNotes", VStr "N")])
              (VStr "1") 1%nat
              [("type", VStr "content"); ("title", VStr "Wind");
               ("content", VArr [VStr "Onshore"; VStr "Offshore"]);
               ("notes", VStr "Compare")]
              (VStr "N") VUndef)
    as (items' & sp' & H1 & H2 & H3 & H4 & _); try reflexivity.
  exists items', sp'. auto.
Defined.

(** X23: the merge runs to its end exactly when the [slideIndex] of
    every entry of [enhancedSlides] can be read and used as a key: for a
    document with a [slides] array and an enhancement whose
    [enhancedSlides] is an array, the statements complete if and only
    if every entry is a value other than [null] and [undefined] (so
    that [e.slideIndex] can be read) whose [slideIndex] can be converted
    to a property key.  Numbers, strings and entries without a
    [slideIndex] are passed over without error; a [null] entry and a
    [slideIndex] that is an object with a [toString] property of its
    own stop the merge. *)
Theorem merge_completes_iff_entries_readable
    enhancements (props : list (string * value)) items entries :
  Js.own props "slides" = Some (VArr items) ->
  Js.Get enhancements "enhancedSlides" = Some (VArr entries) ->
  fst (applyEnhancements enhancements (VObj props)) = Normal
  <-> Forall (fun e => exists idx, Js.Get e "slideIndex" = Some idx
                                   /\ Js.converts idx = true) entries.
Proof.
  intros Hslides Hes. unfold applyEnhancements. rewrite Hes.
  rewrite <- (MergeEffects.forEachEntry_completes entries props items Hslides).
  destruct (forEachEntry entries (VObj props)) as [[|f] doc]; simpl.
  - now destruct (Js.truthy _).
  - reflexivity.
Qed.

Lemma merge_completes_witness :
  fst (applyEnhancements Scenario.enhancement Example.stage1Document) = Normal.
Proof.
  apply (merge_completes_iff_entries_readable Scenario.enhancement
           [("title", VStr "T"); ("subtitle", VStr "S");
            ("slides", VArr [Example.slide0; Example.slide1]); ("theme", VObj [])]
           [Example.slide0; Example.slide1]
           [VObj [("slideIndex", VNum 1); ("enhancedNotes", VStr "Details");
                  ("transition", VStr "Finally")]]);
    [reflexivity | reflexivity |].
  constructor; [|constructor]. exists (VNum 1). split; reflexivity.
Defined.

(** An entry whose [slideIndex] cannot be converted to a property key
    stops the merge like a [null] entry does: the writes of the entries
    before it stay, and [keyTakeaways] is not written. *)
Lemma unconvertible_index_stops_merge :
  applyEnhancements Scenario.unusableIndex Example.stage1Document
  = (Abrupt NoPrimitive,
     VObj [("title", VStr "T"); ("subtitle", VStr "S");
           ("slides",
            VArr [Js.Put (Js.Put Example.slide0 "enhancedNotes" (VStr "More notes"))
                    "transition" (VStr "Next");
                  Example.slide1]);
           ("theme", VObj [])]).
Proof. reflexivity. Qed.

(** X24: [keyTakeaways] is written last and only by a merge that
    completes: the document then has the enhancement's [keyTakeaways]
    when that value is truthy (an empty array included), and keeps its
    own otherwise; a merge that throws on an entry leaves the document's
    [keyTakeaways] as it was. *)
Theorem takeaways_written_only_by_complete_merge
    enhancements (props : list (string * value)) items c props' :
  Js.own props "slides" = Some (VArr items) ->
  applyEnhancements enhancements (VObj props) = (c, VObj props') ->
  let keyTakeaways := default VUndef (Js.Get enhancements "keyTakeaways") in
  Js.own props' "keyTakeaways"
  = if match c with Normal => Js.truthy keyTakeaways | Abrupt _ => false end
    then Some keyTakeaways
    else Js.own props "keyTakeaways".
Proof.
  intros Hslides Hrun. simpl. unfold applyEnhancements in Hrun.
  destruct (Js.Get enhancements "enhancedSlides") as [es|];
    [|injection Hrun as <- <-; reflexivity].
  destruct es as [| | | | |entries|]; try (injection Hrun as <- <-; reflexivity).
  destruct (forEachEntry entries (VObj props)) as [c0 doc0] eqn:Hloop.
  destruct (MergeFacts.forEachEntry_frame entries props items c0 doc0 Hslides Hloop)
    as (props1 & items1 & -> & _ & Hother & _).
  destruct c0.
  - destruct (Js.truthy (default VUndef (Js.Get enhancements "keyTakeaways"))) eqn:Hkt.
    + injection Hrun as <- <-. apply JsFacts.own_assign_eq.
    + injection Hrun as <- <-. now apply Hother.
  - injection Hrun as <- <-. now apply Hother.
Qed.

Lemma takeaways_witness :
  Js.own [("title", VStr "T"); ("subtitle", VStr "S");
          ("slides",
           VArr [Js.Put (Js.Put Example.slide0 "enhancedNotes" (VStr "More notes"))
                   "transition" (VStr "Next");
                 Example.slide1]);
          ("theme", VObj [])]
    "keyTakeaways" = None.
Proof.
  exact (takeaways_written_only_by_complete_merge Example.brokenEnhancement
           [("title", VStr "T"); ("subtitle", VStr "S");
            ("slides", VArr [Example.slide0; Example.slide1]); ("theme", VObj [])]
           [Example.slide0; Example.slide1] (Abrupt ReadOfNullish)
           [("title", VStr "T"); ("subtitle", VStr "S");
            ("slides",
             VArr [Js.Put (Js.Put Example.slide0 "enhancedNotes" (VStr "More notes"))
                     "transition" (VStr "Next");
                   Example.slide1]);
            ("theme", VObj [])]
           eq_refl eq_refl).
Defined.

(** ** What fence stripping hands on *)

Module WindowFacts.
Import JsString JsStringFacts.

Lemma trimStart_suffix (s : string) : exists a, s = a +:+ trimStart s.
Proof.
  induction s as [|c r [a IH]]; simpl; [now exists ""|].
  destruct (isWhiteSpace c).
  - exists (String c a). unapp. now f_equal.
  - now exists "".
Qed.

Lemma trimEnd_prefix (s : string) : exists b, s = trimEnd s +:+ b.
Proof.
  induction s as [|c r [b IH]]; simpl; [now exists ""|].
  destruct (trimEnd r) as [|y r'].
  - destruct (isWhiteSpace c); [now exists (String c r)|].
    exists r. reflexivity.
  - exists b. unapp. now f_equal.
Qed.

Lemma window_trans (x y s a b a' b' : string) :
  s = a +:+ y +:+ b -> y = a' +:+ x +:+ b' ->
  s = (a +:+ a') +:+ x +:+ (b' +:+ b).
Proof. intros -> ->. now rewrite !app_assoc. Qed.

Lemma trim_window (s : string) : exists a b, s = a +:+ trim s +:+ b.
Proof.
  unfold trim. destruct (trimStart_suffix s) as [a Ha].
  destruct (trimEnd_prefix (trimStart s)) as [b Hb].
  exists a, b. rewrite <- Hb. exact Ha.
Qed.

Lemma length_trim (s : string) : (String.length (trim s) <= String.length s)%nat.
Proof.
  destruct (trim_window s) as (a & b & E). rewrite E at 2.
  rewrite !length_app. lia.
Qed.

End WindowFacts.

(** X25: fence stripping only cuts at the two ends.  For every reply
    text, the text handed to [JSON.parse] is one contiguous part of it,
    has no white space at either end, and is never longer than the
    reply: nothing is inserted, reordered or removed from the middle. *)
Theorem stripFence_keeps_a_window (s : string) :
  (exists a b, s = a +:+ stripFence s +:+ b)
  /\ JsString.trim (stripFence s) = stripFence s
  /\ (String.length (stripFence s) <= String.length s)%nat.
Proof.
  assert (Hw : exists a b, s = a +:+ stripFence s +:+ b).
  { unfold stripFence.
    destruct (WindowFacts.trim_window s) as (a0 & b0 & E0).
    set (t0 := JsString.trim s) in *.
    set (t1 := if JsString.startsWith t0 fenceJson then JsString.sliceFrom 7 t0
               else if JsString.startsWith t0 fence then JsString.sliceFrom 3 t0
               else t0).
    assert (H1 : exists a1, t0 = a1 +:+ t1).
    { unfold t1. destruct (JsString.startsWith t0 fenceJson);
        [|destruct (JsString.startsWith t0 fence)].
      - exists (JsString.sliceTo 7 t0). symmetry. apply JsStringFacts.sliceTo_sliceFrom.
      - exists (JsString.sliceTo 3 t0). symmetry. apply JsStringFacts.sliceTo_sliceFrom.
      - now exists "". }
    set (t2 := if JsString.endsWith t1 fence then JsString.sliceDropEnd 3 t1 else t1).
    assert (H2 : exists b2, t1 = t2 +:+ b2).
    { unfold t2. destruct (JsString.endsWith t1 fence).
      - exists (JsString.sliceFrom (String.length t1 - 3) t1).
        symmetry. apply JsStringFacts.sliceTo_sliceFrom.
      - exists "". now rewrite JsStringFacts.app_empty_r. }
    destruct H1 as [a1 E1], H2 as [b2 E2].
    destruct (WindowFacts.trim_window t2) as (a3 & b3 & E3).
    exists (a0 +:+ a1 +:+ a3), (b3 +:+ b2 +:+ b0).
    rewrite E0 at 1. rewrite E1, E2. rewrite E3 at 1.
    now rewrite !JsStringFacts.app_assoc. }
  split; [exact Hw|]. split.
  - unfold stripFence. apply FenceFacts.trim_idempotent.
  - destruct Hw as (a & b & E). rewrite E at 2.
    rewrite !JsStringFacts.length_app. lia.
Qed.

(** ** The earlier revision against the current one *)

Section EarlierFacts.

Variable cfg : Config.
Variable rt : Runtime.

Lemma earlier_run (h : string) messages maxTokens (w : World) :
  MEGALLM_API_KEY cfg <> "" ->
  URL_hostname rt (MEGALLM_API_URL cfg) = Some h ->
  Earlier.callMegaLLM cfg rt messages maxTokens w
  = let r := buildRequest cfg (isAnthropicHost h) messages maxTokens in
    match axios_post rt (length (sent w)) r with
    | Rejected e =>
        (Throw (if Earlier.detailFails e then faultError rt NoPrimitive
                else newError ("API Error: " +:+ Earlier.apiErrorDetail e)),
         withRequest r w)
    | Resolved data =>
        match textOfReply (isAnthropicHost h) data with
        | Some x => (Ok x, withRequest r w)
        | None => (Throw (newError ("API Error: " +:+ faultMessage rt ReadOfNullish)),
                   withRequest r w)
        end
    end.
Proof.
  intros Hkey Hurl.
  unfold Earlier.callMegaLLM, axiosPost, get, raise, tryCatch, bind, throw, ret.
  destruct (String.eqb_spec (MEGALLM_API_KEY cfg) ""); [contradiction|].
  rewrite Hurl. simpl.
  destruct (axios_post rt _ _) as [data | e];
    [|unfold faultError; now destruct (Earlier.detailFails e)].
  unfold textOfReply.
  destruct (isAnthropicHost h); simpl.
  - destruct (Js.Get data "content") as [c|]; [|reflexivity]. simpl.
    destruct (Js.Get c "0") as [c0|]; [|reflexivity]. simpl.
    destruct (Js.Get c0 "text"); reflexivity.
  - destruct (Js.Get data "choices") as [cs|]; [|reflexivity]. simpl.
    destruct (Js.Get cs "0") as [c0|]; [|reflexivity]. simpl.
    destruct (Js.Get c0 "message") as [m|]; [|reflexivity]. simpl.
    destruct (Js.Get m "content"); reflexivity.
Qed.

Lemma earlier_run_invalid_url messages maxTokens (w : World) :
  MEGALLM_API_KEY cfg <> "" ->
  URL_hostname rt (MEGALLM_API_URL cfg) = None ->
  Earlier.callMegaLLM cfg rt messages maxTokens w
  = (Throw (newError ("API Error: " +:+ faultMessage rt InvalidUrl)), w).
Proof.
  intros Hkey Hurl.
  unfold Earlier.callMegaLLM, raise, tryCatch, bind, throw, ret.
  destruct (String.eqb_spec (MEGALLM_API_KEY cfg) ""); [contradiction|].
  rewrite Hurl. reflexivity.
Qed.

(** X26: the two revisions of the adapter differ only in how they report
    failure.  On the same arguments and state they send the same
    requests, and one returns a value exactly when the other returns
    that value; the earlier one leaves [apiStatus] and the clock as they
    were. *)
Theorem revisions_agree_on_requests_and_results messages maxTokens (w : World) :
  let earlier := Earlier.callMegaLLM cfg rt messages maxTokens w in
  let current := callMegaLLM cfg rt messages maxTokens w in
  sent (snd earlier) = sent (snd current)
  /\ (forall x, fst earlier = Ok x <-> fst current = Ok x)
  /\ (forall e, fst earlier = Throw e -> exists e', fst current = Throw e')
  /\ apiStatus (snd earlier) = apiStatus w
  /\ clock (snd earlier) = clock w.
Proof.
  destruct (String.eqb_spec (MEGALLM_API_KEY cfg) "") as [E | Hkey].
  { unfold Earlier.callMegaLLM, callMegaLLM. rewrite E. simpl.
    repeat split; eauto. }
  destruct (URL_hostname rt (MEGALLM_API_URL cfg)) as [h|] eqn:Hurl.
  - rewrite (earlier_run h), (callMegaLLM_run cfg rt h) by assumption. simpl.
    destruct (axios_post rt _ _) as [data | e]; simpl.
    + destruct (textOfReply _ data); simpl; repeat split; eauto; discriminate.
    + repeat split; eauto; discriminate.
  - rewrite earlier_run_invalid_url, callMegaLLM_run_invalid_url by assumption.
    simpl. repeat split; eauto; discriminate.
Qed.

(** X27: in the earlier revision every failure of a call that has a key
    is rethrown under the prefix [API Error: ], unless composing that
    message fails, in which case the call throws the TypeError of the
    conversion.  For a rejected request the detail after the prefix is
    the message of the rejection when the response body has no truthy
    [error.message] (always so when there is no response), and the text
    of the upstream's [error.message] when that value is truthy and can
    be converted to text (its numbers being safe integers); when it is
    truthy and cannot be converted, the TypeError is thrown. *)
Theorem earlier_failures_share_one_prefix messages maxTokens (w w' : World) err :
  MEGALLM_API_KEY cfg <> "" ->
  Earlier.callMegaLLM cfg rt messages maxTokens w = (Throw err, w') ->
  ((exists detail, err = newError ("API Error: " +:+ detail))
   \/ err = faultError rt NoPrimitive)
  /\ (forall h e,
        URL_hostname rt (MEGALLM_API_URL cfg) = Some h ->
        axios_post rt (length (sent w))
          (buildRequest cfg (isAnthropicHost h) messages maxTokens) = Rejected e ->
        (response e = None -> upstreamMessage e = VUndef)
        /\ (Js.truthy (upstreamMessage e) = false ->
            err = newError ("API Error: " +:+ message e))
        /\ (Js.truthy (upstreamMessage e) = true ->
            Js.converts (upstreamMessage e) = true ->
            Js.printsExactly (upstreamMessage e) = true ->
            err = newError ("API Error: " +:+ Js.ToString (upstreamMessage e)))
        /\ (Js.truthy (upstreamMessage e) = true ->
            Js.converts (upstreamMessage e) = false ->
            err = faultError rt NoPrimitive)).
Proof.
  intros Hkey Hrun. split.
  - destruct (URL_hostname rt (MEGALLM_API_URL cfg)) as [h|] eqn:Hurl.
    + rewrite (earlier_run h) in Hrun by assumption. simpl in Hrun.
      destruct (axios_post rt _ _) as [data | e].
      * destruct (textOfReply _ data); [discriminate|].
        injection Hrun as <- _. eauto.
      * injection Hrun as <- _. destruct (Earlier.detailFails e); eauto.
    + rewrite earlier_run_invalid_url in Hrun by assumption.
      injection Hrun as <- _. eauto.
  - intros h e Hurl Hpost.
    rewrite (earlier_run h) in Hrun by assumption. simpl in Hrun.
    rewrite Hpost in Hrun. injection Hrun as <- _.
    unfold Earlier.detailFails, Earlier.apiErrorDetail.
    fold (upstreamMessage e).
    split; [unfold upstreamMessage; now intros ->|].
    split; [now intros ->|]. split; [now intros -> ->|]. now intros -> ->.
Qed.

End EarlierFacts.

Lemma earlier_failures_witness :
  (exists detail,
      newError "API Error: slow down" = newError ("API Error: " +:+ detail))
  \/ newError "API Error: slow down" = faultError Scenario.rtDown NoPrimitive.
Proof.
  destruct (earlier_failures_share_one_prefix Scenario.cfg Scenario.rtDown
              Scenario.hello 100 (startup Scenario.cfg)
              (withRequest (buildRequest Scenario.cfg false Scenario.hello 100)
                 (startup Scenario.cfg))
              (newError "API Error: slow down"))
    as [H _]; [discriminate | reflexivity | exact H].
Defined.

(** ** Configuration from the environment *)

Lemma health_status_at_startup (cfg : Config) :
  Js.Get (json (health cfg (startup cfg))) "status"
  = Some (VStr (if String.eqb (MEGALLM_API_KEY cfg) "" then "unconfigured" else "ok")).
Proof.
  unfold health, startup. simpl. now destruct (String.eqb (MEGALLM_API_KEY cfg) "").
Qed.

(** X28: an empty environment variable counts as an unset one.  With
    [MEGALLM_API_KEY] unset or empty the server starts unconfigured:
    every adapter call throws the missing-key error and the health route
    says [unconfigured]; with a non-empty key it says [ok].  The model
    and the URL are never empty: an unset or empty variable gives the
    default. *)
Theorem empty_variable_counts_as_unset (getenv : string -> option string) (rt : Runtime) :
  let cfg := loadConfig getenv in
  (getenv "MEGALLM_API_KEY" = None \/ getenv "MEGALLM_API_KEY" = Some "" ->
     (forall messages maxTokens w,
         callMegaLLM cfg rt messages maxTokens w = (Throw (newError missingKeyMessage), w))
     /\ Js.Get (json (health cfg (startup cfg))) "status" = Some (VStr "unconfigured"))
  /\ (forall k, getenv "MEGALLM_API_KEY" = Some k -> k <> "" ->
        MEGALLM_API_KEY cfg = k
        /\ Js.Get (json (health cfg (startup cfg))) "status" = Some (VStr "ok"))
  /\ MEGALLM_MODEL cfg <> "" /\ MEGALLM_API_URL cfg <> ""
  /\ (getenv "MEGALLM_MODEL" = None \/ getenv "MEGALLM_MODEL" = Some "" ->
        MEGALLM_MODEL cfg = "claude-opus-4-5-20251101")
  /\ (getenv "MEGALLM_API_URL" = None \/ getenv "MEGALLM_API_URL" = Some "" ->
        MEGALLM_API_URL cfg = "https://api.anthropic.com/v1/messages").
Proof.
  cbv zeta. split; [|split; [|split; [|split; [|split]]]].
  - intros Hk.
    assert (E : MEGALLM_API_KEY (loadConfig getenv) = "").
    { unfold loadConfig, envOr. simpl. now destruct Hk as [-> | ->]. }
    split.
    + intros. unfold callMegaLLM. now rewrite E.
    + now rewrite health_status_at_startup, E.
  - intros k Hk Hne.
    assert (E : MEGALLM_API_KEY (loadConfig getenv) = k).
    { unfold loadConfig, envOr. simpl. rewrite Hk.
      now destruct (String.eqb_spec k ""). }
    split; [exact E|]. rewrite health_status_at_startup, E.
    now destruct (String.eqb_spec k "").
  - unfold loadConfig, envOr. simpl.
    destruct (getenv "MEGALLM_MODEL") as [m|]; [|discriminate].
    destruct (String.eqb_spec m ""); [discriminate | assumption].
  - unfold loadConfig, envOr. simpl.
    destruct (getenv "MEGALLM_API_URL") as [u|]; [|discriminate].
    destruct (String.eqb_spec u ""); [discriminate | assumption].
  - unfold loadConfig, envOr. simpl. now intros [-> | ->].
  - unfold loadConfig, envOr. simpl. now intros [-> | ->].
Qed.

Lemma empty_variable_witness :
  Js.Get (json (health (loadConfig (fun _ => Some ""))
                  (startup (loadConfig (fun _ => Some ""))))) "status"
  = Some (VStr "unconfigured").
Proof.
  destruct (empty_variable_counts_as_unset (fun _ => Some "") Example.rt) as [H _].
  apply H. now right.
Defined.

(** ** The stages and the route on the second environment *)

Module ScenarioRuns.
Import Scenario.

Lemma topic_not_blank : ~ JsString.blank topic.
Proof. unfold JsString.blank. simpl. discriminate. Qed.


Lemma structure_rejection_witness :
  fst (generate cfg rtDown Example.request (startup cfg))
  = {| status := 500;
       json := errorBody "API rate limit exceeded. Please wait a moment and try again." |}.
Proof.
  change Example.request with (VObj [("topic", VStr topic)]).
  rewrite (structure_rejection_fails_request cfg rtDown [("topic", VStr topic)] topic
             "llm.example.com" (startup cfg) rateLimited);
    [reflexivity | reflexivity | apply topic_not_blank | discriminate
    | reflexivity | reflexivity | reflexivity].
Defined.

Lemma unparseable_structure_witness :
  status (fst (generate cfg rtProse Example.request (startup cfg))) = 500.
Proof.
  apply (unparseable_structure_fails_request cfg rtProse [("topic", VStr topic)] topic
           "llm.example.com" (startup cfg)
           (VObj [("choices",
                   VArr [VObj [("message",
                                VObj [("role", VStr "assistant");
                                      ("content", VStr "Sure! Here is your presentation.")])]])])
           (VStr "Sure! Here is your presentation."));
    try reflexivity; [apply topic_not_blank | discriminate |].
  intros s [= <-]. reflexivity.
Defined.

Lemma enhancement_request_witness :
  sent (snd (enhancePresentation cfg rt Example.stage1Document (startup cfg)))
  = [buildRequest cfg false
       (enhanceMessages rt (VArr [Example.slide0; Example.slide1])) 4000].
Proof.
  apply (enhancement_request_shows_first_five_slides cfg rt "llm.example.com"
           documentProps [Example.slide0; Example.slide1] (startup cfg));
    [discriminate | reflexivity | reflexivity | reflexivity].
Defined.

Lemma enhancement_skipped_witness :
  enhancePresentation cfg rt (VObj [("title", VStr "T")]) (startup cfg)
  = (Ok (VObj [("title", VStr "T")]), startup cfg).
Proof. apply enhancement_skipped_without_slides. exact I. Defined.

Lemma enhancement_failure_witness :
  fst (enhancePresentation cfg rtDown Example.stage1Document (startup cfg))
  = Ok Example.stage1Document.
Proof.
  apply (enhancement_failure_returns_document cfg rtDown "llm.example.com"
           documentProps [Example.slide0; Example.slide1] (startup cfg)
           (Rejected rateLimited));
    [discriminate | reflexivity | reflexivity | reflexivity | exact I].
Defined.

Lemma reply_status_witness :
  status (fst (generate cfg rtStage2Down Example.request (startup cfg))) = 200.
Proof.
  apply (reply_status_decided_by_stage1 cfg rtStage2Down [("topic", VStr topic)] topic
           Example.stage1Document (startup cfg)
           (snd (generatePresentationStructure cfg rtStage2Down (VStr topic) (startup cfg))));
    [reflexivity | apply topic_not_blank | reflexivity].
Defined.

Lemma non_string_topic_witness :
  generate cfg rt (VObj [("topic", VNum 5)]) (startup cfg)
  = (errorReply (faultError rt NotAFunction), startup cfg).
Proof.
  apply (non_string_topic_is_a_server_error cfg rt [("topic", VNum 5)] (VNum 5));
    [reflexivity | reflexivity | discriminate].
Defined.

Lemma stamped_witness :
  exists t,
    Js.Get Example.request "topic" = Some (VStr t)
    /\ uuids (snd (generate cfg rt Example.request (startup cfg))) = 1%nat.
Proof.
  destruct (successful_reply_is_stamped cfg rt Example.request (startup cfg))
    as (t & Ht & Hu & _); [reflexivity|].
  exists t. split; [exact Ht | exact Hu].
Defined.

Lemma generate_merges_witness :
  fst (generate cfg rt Example.request (startup cfg))
  = {| status := 200;
       json := stamped (snd (applyEnhancements enhancement Example.stage1Document))
                 "uuid-0" "2025-01-01T00:00:00.2Z" (VStr topic) |}.
Proof.
  change Example.request with (VObj [("topic", VStr topic)]).
  apply (generate_merges_and_stamps cfg rt [("topic", VStr topic)] topic
           documentProps [Example.slide0; Example.slide1] "llm.example.com"
           (startup cfg)
           (snd (generatePresentationStructure cfg rt (VStr topic) (startup cfg)))
           (VObj [("choices",
                   VArr [VObj [("message",
                                VObj [("role", VStr "assistant");
                                      ("content", VStr (Example.textOf enhancement))])]])])
           (Example.textOf enhancement) enhancement);
    try reflexivity; [apply topic_not_blank | discriminate].
Defined.

Lemma early_failure_witness :
  exists createdAt,
    fst (generate cfg rtStage2Down Example.request (startup cfg))
    = {| status := 200;
         json := stamped Example.stage1Document "uuid-0" createdAt (VStr topic) |}.
Proof.
  apply (reply_is_stage1_document_when_enhancement_fails_early cfg rtStage2Down
           [("topic", VStr topic)] topic documentProps [Example.slide0; Example.slide1]
           "llm.example.com" (startup cfg)
           (snd (generatePresentationStructure cfg rtStage2Down (VStr topic) (startup cfg)))
           (Rejected rateLimited));
    try reflexivity; try apply topic_not_blank; try discriminate; try exact I.
Defined.

End ScenarioRuns.
